(** * AlienPoker: the auto-balancer control loop

    Shallow embedding of [backend/config.py] and [backend/auto_balancer.py].

    Python's [float] is IEEE-754 binary64 with round-to-nearest-even.  It is
    modelled by the executable specification [SpecFloat] of the standard
    library at precision 53 and maximal exponent 1024, so that rounding,
    overflow to infinity and NaN behave in the model as they do in CPython. *)

From Stdlib Require Import ZArith List Bool Lia String.
From Stdlib Require Import SpecFloat.
Import ListNotations.
Open Scope Z_scope.

(* ================================================================== *)
(** * Part I: definitions *)
(* ================================================================== *)

(** ** Python floats *)

Module F64.

Definition prec : Z := 53.
Definition emax : Z := 1024.

Definition float : Type := spec_float.

Definition add : float -> float -> float := SFadd prec emax.
Definition sub : float -> float -> float := SFsub prec emax.
Definition mul : float -> float -> float := SFmul prec emax.
Definition div : float -> float -> float := SFdiv prec emax.

(** [x < y], [x <= y], [x > y] and [x == y]; all are [false] on NaN. *)
Definition ltb : float -> float -> bool := SFltb.
Definition leb : float -> float -> bool := SFleb.
Definition gtb (x y : float) : bool := ltb y x.
Definition eqb : float -> float -> bool := SFeqb.

Definition is_nan (x : float) : bool :=
  match x with S754_nan => true | _ => false end.

(** [math.isfinite]. *)
Definition is_finite (x : float) : bool :=
  match x with
  | S754_zero _ | S754_finite _ _ _ => true
  | S754_infinity _ | S754_nan => false
  end.

(** The triples [(s, m, e)] that are binary64 values: canonical mantissa,
    exponent in range.  Every value CPython can hold is of this kind. *)
Definition valid : float -> bool := valid_binary prec emax.

Definition of_Z (z : Z) : float := binary_normalize prec emax z 0 false.

(** A decimal literal [n/d] (such as [0.8] = 8/10).  Integers of this size
    convert exactly and [div] rounds correctly, so the result is the
    binary64 value nearest to the decimal fraction, which is what the
    Python parser produces for the literal. *)
Definition literal (n d : Z) : float := div (of_Z n) (of_Z d).

Definition nan : float := S754_nan.

End F64.

Import F64.

(** The float literals that occur in the two source files. *)
Definition lit_0_03 : float := Eval vm_compute in literal 3 100.
Definition lit_0_05 : float := Eval vm_compute in literal 5 100.
Definition lit_0_07 : float := Eval vm_compute in literal 7 100.
Definition lit_0_5  : float := Eval vm_compute in literal 5 10.
Definition lit_0_8  : float := Eval vm_compute in literal 8 10.
Definition lit_1_0  : float := Eval vm_compute in literal 1 1.
Definition lit_3_0  : float := Eval vm_compute in literal 3 1.

(** ** config.py *)

Record Config : Type := mkConfig {
  players         : Z;
  ante            : Z;
  rounds          : Z;
  target_edge     : float;
  bust_multiplier : float;
  tube_initial    : list (string * float)
}.

(** [Config()] with every default. *)
Definition default_config : Config :=
  {| players := 4;
     ante := 5;
     rounds := 20000;
     target_edge := lit_0_05;
     bust_multiplier := lit_1_0;
     tube_initial :=
       [ ("ST"%string, of_Z 5); ("FL"%string, of_Z 10); ("FH"%string, of_Z 15);
         ("SF"%string, of_Z 20); ("RF"%string, of_Z 25) ] |}.

(** Attribute assignment [config.bust_multiplier = v]. *)
Definition set_bust_multiplier (v : float) (c : Config) : Config :=
  {| players := players c;
     ante := ante c;
     rounds := rounds c;
     target_edge := target_edge c;
     bust_multiplier := v;
     tube_initial := tube_initial c |}.

(** Attribute assignment [config.target_edge = v], available to any holder of
    the config object (the dataclass is not frozen). *)
Definition set_target_edge (v : float) (c : Config) : Config :=
  {| players := players c;
     ante := ante c;
     rounds := rounds c;
     target_edge := v;
     bust_multiplier := bust_multiplier c;
     tube_initial := tube_initial c |}.

(** ** auto_balancer.py *)

Inductive PyExn : Type :=
| UnboundLocalError (name : string)
| EngineFault (msg : string).

Inductive Outcome (A : Type) : Type :=
| Returned (a : A)
| Raised (e : PyExn).

Arguments Returned {A} a.
Arguments Raised {A} e.

Definition outcome_map {A B : Type} (f : A -> B) (o : Outcome A) : Outcome B :=
  match o with
  | Returned a => Returned (f a)
  | Raised e => Raised e
  end.

(** The attributes of an [AutoBalancer] that hold values.  The attribute
    [self.config] holds a reference to the caller's config object: that
    object is the one mutable cell of the model, and it is threaded through
    [adjust] and [run] as the store. *)
Record AutoBalancer (E : Type) : Type := mkAutoBalancer {
  engine_class  : E;
  min_edge      : float;
  max_edge      : float;
  target        : float;
  learning_rate : float
}.

Arguments mkAutoBalancer {E}.
Arguments engine_class {E}.
Arguments min_edge {E}.
Arguments max_edge {E}.
Arguments target {E}.
Arguments learning_rate {E}.

(** [AutoBalancer.__init__]: [target] is read from the config once, here. *)
Definition init {E : Type} (engine_class : E) (config : Config) : AutoBalancer E :=
  {| engine_class := engine_class;
     min_edge := lit_0_03;
     max_edge := lit_0_07;
     target := target_edge config;
     learning_rate := lit_0_8 |}.

(** [AutoBalancer.adjust]: the store is the config object; the Python method
    returns [None], here [tt]. *)
Definition adjust {E : Type} (self : AutoBalancer E) (edge : float)
    (config : Config) : unit * Config :=
  let gap := sub (target self) edge in
  let config :=
    set_bust_multiplier
      (add (bust_multiplier config) (mul (learning_rate self) gap)) config in
  let config :=
    if ltb (bust_multiplier config) lit_0_5
    then set_bust_multiplier lit_0_5 config else config in
  let config :=
    if gtb (bust_multiplier config) lit_3_0
    then set_bust_multiplier lit_3_0 config else config in
  (tt, config).

(** Successive [adjust] calls, oldest first. *)
Definition adjust_seq {E : Type} (self : AutoBalancer E) (edges : list float)
    (config : Config) : Config :=
  fold_left (fun c edge => snd (adjust self edge c)) edges config.

(** What a holder of both objects can do between two observations: call
    [adjust], or overwrite [config.target_edge]. *)
Inductive CallerOp : Type :=
| OpAdjust (edge : float)
| OpSetTarget (t : float).

Definition caller_step {E : Type} (self : AutoBalancer E) (c : Config)
    (op : CallerOp) : Config :=
  match op with
  | OpAdjust edge => snd (adjust self edge c)
  | OpSetTarget t => set_target_edge t c
  end.

Definition caller_play {E : Type} (self : AutoBalancer E) (ops : list CallerOp)
    (config : Config) : Config :=
  fold_left (caller_step self) ops config.

Fixpoint adjust_edges (ops : list CallerOp) : list float :=
  match ops with
  | [] => []
  | OpAdjust edge :: ops' => edge :: adjust_edges ops'
  | OpSetTarget _ :: ops' => adjust_edges ops'
  end.

(** The acceptance test of [run], [self.min_edge <= edge <= self.max_edge]:
    a chained comparison is the conjunction of its two halves. *)
Definition in_band {E : Type} (self : AutoBalancer E) (edge : float) : bool :=
  leb (min_edge self) edge && leb edge (max_edge self).

Section Run.

(** [W] is whatever the engine depends on besides the config (random
    generator, clock); [Result] is the record [simulate()] returns and
    [house_edge] its lookup [result["house_edge"]]. *)
Variables (W Result : Type).
Variable house_edge : Result -> float.

(** The collaborator passed as [engine_class]: calling it builds an engine
    from the config, and the engine has a [simulate] method.  Either call
    may raise.  The engine reads the config it is given and does not write
    to it (the engine contract of the specification); what else it depends
    on or changes is in [W]. *)
Record EngineClass : Type := mkEngineClass {
  Engine    : Type;
  construct : Config -> W -> Outcome Engine * W;
  simulate  : Engine -> W -> Outcome Result * W
}.

(** What [run] does, in order.  [EvSimulate] records one call of
    [simulate()] with the config the engine was built from and what the
    call produced; the two [print] statements are [EvPrintIteration] and
    [EvPrintStabilized]; [EvAdjust] records one call of [adjust] with the
    config as the call leaves it. *)
Inductive Event : Type :=
| EvConstructFailed (snapshot : Config) (e : PyExn)
| EvSimulate (snapshot : Config) (res : Outcome Result)
| EvPrintIteration (i : Z) (edge : float)
| EvPrintStabilized
| EvAdjust (edge : float) (after : Config).

Record RunEnd : Type := mkRunEnd {
  outcome      : Outcome Result;
  final_config : Config;
  final_world  : W;
  trace        : list Event
}.

Definition after_events (evs : list Event) (r : RunEnd) : RunEnd :=
  {| outcome := outcome r;
     final_config := final_config r;
     final_world := final_world r;
     trace := evs ++ trace r |}.

(** Lines 25-26: [engine = self.engine_class(self.config)] followed by
    [result = engine.simulate()]. *)
Definition engine_call (ec : EngineClass) (config : Config) (w : W)
    : Outcome Result * W :=
  match construct ec config w with
  | (Raised e, w1) => (Raised e, w1)
  | (Returned eng, w1) => simulate ec eng w1
  end.

(** The [for] loop of [run] with [k] iterations left, the next index being
    [i].  [result] is the local variable of that name: [None] while it is
    unbound.  The last case is the [return result] after the loop. *)
Fixpoint run_loop (self : AutoBalancer EngineClass) (k : nat) (i : Z)
    (result : option Result) (config : Config) (w : W) : RunEnd :=
  match k with
  | O =>
      {| outcome :=
           match result with
           | Some r => Returned r
           | None => Raised (UnboundLocalError "result")
           end;
         final_config := config;
         final_world := w;
         trace := [] |}
  | S k' =>
      match construct (engine_class self) config w with
      | (Raised e, w1) =>
          {| outcome := Raised e; final_config := config; final_world := w1;
             trace := [EvConstructFailed config e] |}
      | (Returned eng, w1) =>
          match simulate (engine_class self) eng w1 with
          | (Raised e, w2) =>
              {| outcome := Raised e; final_config := config;
                 final_world := w2;
                 trace := [EvSimulate config (Raised e)] |}
          | (Returned r, w2) =>
              let edge := house_edge r in
              if in_band self edge then
                {| outcome := Returned r; final_config := config;
                   final_world := w2;
                   trace := [EvSimulate config (Returned r);
                             EvPrintIteration i edge;
                             EvPrintStabilized] |}
              else
                let config' := snd (adjust self edge config) in
                after_events
                  [EvSimulate config (Returned r);
                   EvPrintIteration i edge;
                   EvAdjust edge config']
                  (run_loop self k' (i + 1) (Some r) config' w2)
          end
      end
  end.

(** [AutoBalancer.run]: [range(max_iterations)] is empty when
    [max_iterations <= 0]. *)
Definition run (self : AutoBalancer EngineClass) (max_iterations : Z)
    (config : Config) (w : W) : RunEnd :=
  run_loop self (Z.to_nat max_iterations) 0 None config w.

(** *** Reading a trace *)

(** Number of [simulate()] calls. *)
Fixpoint count_simulate (t : list Event) : nat :=
  match t with
  | [] => O
  | EvSimulate _ _ :: t' => S (count_simulate t')
  | _ :: t' => count_simulate t'
  end.

(** Number of [adjust] calls. *)
Fixpoint count_adjust (t : list Event) : nat :=
  match t with
  | [] => O
  | EvAdjust _ _ :: t' => S (count_adjust t')
  | _ :: t' => count_adjust t'
  end.

(** What the engine handed back, iteration by iteration. *)
Fixpoint engine_outcomes (t : list Event) : list (Outcome Result) :=
  match t with
  | [] => []
  | EvConstructFailed _ e :: t' => Raised e :: engine_outcomes t'
  | EvSimulate _ res :: t' => res :: engine_outcomes t'
  | _ :: t' => engine_outcomes t'
  end.

(** The measured statistics the controller was fed. *)
Definition observations (t : list Event) : list (Outcome float) :=
  map (outcome_map house_edge) (engine_outcomes t).

(** The result of the last [simulate()] call that returned. *)
Fixpoint last_result (t : list Event) : option Result :=
  match t with
  | [] => None
  | EvSimulate _ (Returned r) :: t' =>
      match last_result t' with
      | Some r' => Some r'
      | None => Some r
      end
  | _ :: t' => last_result t'
  end.

(** The actuator values the engine was run at. *)
Fixpoint visited (t : list Event) : list float :=
  match t with
  | [] => []
  | EvSimulate c _ :: t' => bust_multiplier c :: visited t'
  | _ :: t' => visited t'
  end.

(** The actuator values [adjust] wrote. *)
Fixpoint actuators (t : list Event) : list float :=
  match t with
  | [] => []
  | EvAdjust _ c :: t' => bust_multiplier c :: actuators t'
  | _ :: t' => actuators t'
  end.

(** Every state of the config object that [run] exposes: the ones engines
    were built from and the ones [adjust] left behind. *)
Fixpoint trace_configs (t : list Event) : list Config :=
  match t with
  | [] => []
  | EvConstructFailed c _ :: t' => c :: trace_configs t'
  | EvSimulate c _ :: t' => c :: trace_configs t'
  | EvAdjust _ c :: t' => c :: trace_configs t'
  | _ :: t' => trace_configs t'
  end.

(** Why [run] stopped. *)
Inductive Stop : Type :=
| Converged
| Exhausted
| Failed.

Definition stop_decision (self : AutoBalancer EngineClass) (r : RunEnd) : Stop :=
  match outcome r with
  | Returned res => if in_band self (house_edge res) then Converged else Exhausted
  | Raised _ => Failed
  end.

End Run.

Arguments mkEngineClass {W Result}.
Arguments Engine {W Result}.
Arguments construct {W Result}.
Arguments simulate {W Result}.
Arguments EvConstructFailed {Result}.
Arguments EvSimulate {Result}.
Arguments EvPrintIteration {Result}.
Arguments EvPrintStabilized {Result}.
Arguments EvAdjust {Result}.
Arguments outcome {W Result}.
Arguments final_config {W Result}.
Arguments final_world {W Result}.
Arguments trace {W Result}.
Arguments after_events {W Result}.
Arguments engine_call {W Result}.
Arguments run_loop {W Result}.
Arguments run {W Result}.
Arguments count_simulate {Result}.
Arguments count_adjust {Result}.
Arguments engine_outcomes {Result}.
Arguments observations {Result}.
Arguments last_result {Result}.
Arguments visited {Result}.
Arguments actuators {Result}.
Arguments trace_configs {Result}.
Arguments stop_decision {W Result}.

(** ** Shapes of a run *)

Section Shapes.

Context {W Result : Type}.
Variable house_edge : Result -> float.

Let Self : Type := AutoBalancer (EngineClass W Result).

(** What one iteration does, by what the engine hands back. *)
Inductive IterationShape (self : Self) (k : nat) (i : Z) (config : Config)
    (w : W) (R : RunEnd W Result) : Prop :=
| shape_raised (e : PyExn) (w' : W) (ev : Event Result)
    (Hcall : engine_call (engine_class self) config w = (Raised e, w'))
    (Hev : ev = EvConstructFailed config e \/ ev = EvSimulate config (Raised e))
    (HR : R = {| outcome := Raised e; final_config := config;
                 final_world := w'; trace := [ev] |})
| shape_in_band (r : Result) (w' : W)
    (Hcall : engine_call (engine_class self) config w = (Returned r, w'))
    (Hband : in_band self (house_edge r) = true)
    (HR : R = {| outcome := Returned r; final_config := config;
                 final_world := w';
                 trace := [EvSimulate config (Returned r);
                           EvPrintIteration i (house_edge r);
                           EvPrintStabilized] |})
| shape_adjusted (r : Result) (w' : W)
    (Hcall : engine_call (engine_class self) config w = (Returned r, w'))
    (Hband : in_band self (house_edge r) = false)
    (HR : R = after_events
                [EvSimulate config (Returned r);
                 EvPrintIteration i (house_edge r);
                 EvAdjust (house_edge r)
                   (snd (adjust self (house_edge r) config))]
                (run_loop house_edge self k (i + 1) (Some r)
                   (snd (adjust self (house_edge r) config)) w')).

(** "An engine whose statistic never enters the band": whatever the config
    and the world, the engine returns a record, and its statistic is
    outside the band. *)
Definition never_in_band (self : Self) : Prop :=
  forall (config : Config) (w : W),
  exists (r : Result) (w' : W),
    engine_call (engine_class self) config w = (Returned r, w') /\
    in_band self (house_edge r) = false.

End Shapes.

(** ** Stub engines *)

(** A deterministic engine whose statistic is the function [f] of the
    actuator it was built with: no world, no failure, and the result record
    is the statistic itself. *)
Definition stub_engine (f : float -> float) : EngineClass unit float :=
  {| Engine := float;
     construct := fun config w => (Returned (bust_multiplier config), w);
     simulate := fun actuator w => (Returned (f actuator), w) |}.

Definition stub_house_edge (r : float) : float := r.

(** The same stub inside an engine class that also counts its [simulate()]
    calls in the world. *)
Definition counting_stub_engine (f : float -> float) : EngineClass nat float :=
  {| Engine := float;
     construct := fun config n => (Returned (bust_multiplier config), n);
     simulate := fun actuator n => (Returned (f actuator), S n) |}.

Definition run_stub (f : float -> float) (max_iterations : Z) (config : Config)
    : RunEnd unit float :=
  run stub_house_edge (init (stub_engine f) config) max_iterations config tt.

(** The stub of the scenario of the specification, [statistic = 0.20 / actuator]. *)
Definition scenario_stub (a : float) : float := div (literal 2 10) a.

(** A stub that reverses the order of the positive binary64 values between
    two powers of two exactly, without rounding: the mantissa [m] of
    [m * 2^e] becomes [2^53 + 2^52 - 1 - m] and the exponent becomes
    [-108 - e].  Read as a function of the actuator [a] it is piecewise
    linear and decreasing, one unit in the last place below
    [3/8 - a/4] on [[0.5, 1)], [3/16 - a/16] on [[1, 2)] and
    [3/32 - a/64] on [[2, 4)]: about 0.25 at 0.5, 0.125 at 1.0, 0.0625 at
    2.0 and 0.0469 at 3.0. *)
Definition mirror_stub (a : float) : float :=
  match a with
  | S754_finite false m e =>
      S754_finite false (Z.to_pos (13510798882111487 - Zpos m)) (-108 - e)
  | _ => a
  end.

(** ** The specification's vocabulary *)

(** Python's [max(x, lo)] and [min(x, hi)] on floats. *)
Definition py_max (x lo : float) : float := if gtb lo x then lo else x.
Definition py_min (x hi : float) : float := if ltb hi x then hi else x.

(** "Clamps actuator into [[actuatorMin, actuatorMax]]". *)
Definition clamp (lo hi x : float) : float := py_min (py_max x lo) hi.

(** "[actuator] is within [[0.5, 3.0]]". *)
Definition in_clamp_range (x : float) : bool := leb lit_0_5 x && leb x lit_3_0.

(** What [adjust] is specified to write: the clamp of
    [actuator + learningRate * (targetStatistic - measuredStatistic)]. *)
Definition adjust_spec (targetStatistic learningRate measured actuator : float)
    : float :=
  let error := sub targetStatistic measured in
  clamp lit_0_5 lit_3_0 (add actuator (mul learningRate error)).

(** The fields of the config other than the actuator. *)
Definition same_static_inputs (c c' : Config) : Prop :=
  players c' = players c /\ ante c' = ante c /\ rounds c' = rounds c /\
  target_edge c' = target_edge c /\ tube_initial c' = tube_initial c.

(** "The statistic is a strictly monotonic decreasing function of the
    actuator", on the values the actuator ranges over. *)
Definition strictly_decreasing_on_clamp_range (f : float -> float) : Prop :=
  forall a b : float,
    valid a = true -> valid b = true ->
    leb lit_0_5 a = true -> ltb a b = true -> leb b lit_3_0 = true ->
    ltb (f b) (f a) = true.

(** "Some actuator within the clamp range produces a statistic inside the
    band". *)
Definition band_reachable (f : float -> float) : Prop :=
  exists a : float,
    valid a = true /\ in_clamp_range a = true /\
    leb lit_0_03 (f a) && leb (f a) lit_0_07 = true.

(** "[run()] terminates with convergence". *)
Definition converges {W Result : Type} (house_edge : Result -> float)
    (self : AutoBalancer (EngineClass W Result)) (r : RunEnd W Result) : Prop :=
  exists res : Result,
    outcome r = Returned res /\ in_band self (house_edge res) = true.

(** Two balancers that differ at most in the engine they were given. *)
Definition same_controller {E1 E2 : Type} (s1 : AutoBalancer E1)
    (s2 : AutoBalancer E2) : Prop :=
  min_edge s1 = min_edge s2 /\ max_edge s1 = max_edge s2 /\
  target s1 = target s2 /\ learning_rate s1 = learning_rate s2.

(** The convergence property of section 8, as the specification words it. *)
Definition convergence_under_monotone_stubs : Prop :=
  forall (f : float -> float) (config : Config) (max_iterations : Z),
    strictly_decreasing_on_clamp_range f ->
    band_reachable f ->
    1 <= max_iterations ->
    converges stub_house_edge (init (stub_engine f) config)
      (run_stub f max_iterations config).

(** The clamp invariant as the specification words it: whatever the config
    holds, [adjust] of a finite statistic leaves the actuator in range. *)
Definition clamp_invariant_any_config : Prop :=
  forall (config : Config) (edge : float),
    is_finite edge = true ->
    in_clamp_range
      (bust_multiplier (snd (adjust (init tt config) edge config))) = true.

(** "Calling [adjust] with the target leaves the actuator unchanged", for
    every config. *)
Definition adjust_at_target_is_identity : Prop :=
  forall config : Config,
    bust_multiplier (snd (adjust (init tt config) (target_edge config) config))
    = bust_multiplier config.

(** ** More ways to read a trace *)

(** The iteration indices [run] printed, in order. *)
Fixpoint printed_indices {Result : Type} (t : list (Event Result)) : list Z :=
  match t with
  | [] => []
  | EvPrintIteration i _ :: t' => i :: printed_indices t'
  | _ :: t' => printed_indices t'
  end.

(** How often the line "Edge stabilized within 3-7% band." was printed. *)
Fixpoint count_stabilized {Result : Type} (t : list (Event Result)) : nat :=
  match t with
  | [] => O
  | EvPrintStabilized :: t' => S (count_stabilized t')
  | _ :: t' => count_stabilized t'
  end.

(** The statistics of the records [simulate()] returned, in order. *)
Fixpoint returned_statistics {Result : Type} (house_edge : Result -> float)
    (t : list (Event Result)) : list float :=
  match t with
  | [] => []
  | EvSimulate _ (Returned r) :: t' =>
      house_edge r :: returned_statistics house_edge t'
  | _ :: t' => returned_statistics house_edge t'
  end.

Definition is_returned {A : Type} (o : Outcome A) : Prop :=
  exists a : A, o = Returned a.

(** The counting stub, except that [simulate()] raises from its call number
    [good] on (calls are numbered from 0). *)
Definition faulty_stub_engine (f : float -> float) (good : nat)
    : EngineClass nat float :=
  {| Engine := float;
     construct := fun config n => (Returned (bust_multiplier config), n);
     simulate := fun actuator n =>
       if (n <? good)%nat then (Returned (f actuator), S n)
       else (Raised (EngineFault "simulate failed"), S n) |}.

(** [range(n)] as a list. *)
Definition py_range (n : nat) : list Z := map Z.of_nat (seq 0 n).

(* ================================================================== *)
(** * Part II: facts about binary64 arithmetic *)
(* ================================================================== *)

(** The literals, bit for bit: sign, 53-bit mantissa, exponent of the last
    mantissa bit. *)
Lemma literal_bits :
  lit_0_03 = S754_finite false 8646911284551352 (-58) /\
  lit_0_05 = S754_finite false 7205759403792794 (-57) /\
  lit_0_07 = S754_finite false 5044031582654956 (-56) /\
  lit_0_5 = S754_finite false 4503599627370496 (-53) /\
  lit_0_8 = S754_finite false 7205759403792794 (-53) /\
  lit_1_0 = S754_finite false 4503599627370496 (-52) /\
  lit_3_0 = S754_finite false 6755399441055744 (-51).
Proof. repeat split; reflexivity. Qed.

Lemma literals_valid :
  forallb valid
    [lit_0_03; lit_0_05; lit_0_07; lit_0_5; lit_0_8; lit_1_0; lit_3_0] = true.
Proof. reflexivity. Qed.

Lemma default_config_valid :
  valid (target_edge default_config) = true /\
  valid (bust_multiplier default_config) = true /\
  forallb (fun kv => valid (snd kv)) (tube_initial default_config) = true.
Proof. repeat split; reflexivity. Qed.

Section FloatFacts.

(** *** Comparison *)

Lemma compare_swap (x y : float) :
  SFcompare y x = option_map CompOpp (SFcompare x y).
Proof.
  destruct x as [sx | sx | | sx mx ex], y as [sy | sy | | sy my ey];
    try destruct sx; try destruct sy; simpl; try reflexivity.
  - rewrite (Z.compare_antisym ey ex).
    destruct (ey ?= ex); simpl; try reflexivity.
    rewrite (Pos.compare_cont_antisym mx my Eq). reflexivity.
  - rewrite (Z.compare_antisym ey ex).
    destruct (ey ?= ex); simpl; try reflexivity.
    rewrite (Pos.compare_cont_antisym mx my Eq). reflexivity.
Qed.

(** On numbers, "not below" is "at or above". *)
Lemma not_ltb_leb (x y : float) :
  is_nan x = false -> is_nan y = false -> ltb x y = false -> leb y x = true.
Proof.
  unfold ltb, leb, SFltb, SFleb. intros Hx Hy.
  rewrite (compare_swap x y).
  destruct (SFcompare x y) as [[ | | ] | ] eqn:Hc; simpl; try congruence.
  destruct x, y; cbv in Hx, Hy, Hc; discriminate.
Qed.

Lemma leb_not_ltb (x y : float) : leb x y = true -> ltb y x = false.
Proof.
  unfold ltb, leb, SFltb, SFleb. rewrite (compare_swap x y).
  destruct (SFcompare x y) as [[ | | ] | ]; simpl; congruence.
Qed.

Lemma leb_not_nan_l (x y : float) : leb x y = true -> is_nan x = false.
Proof.
  intros H. destruct x; try reflexivity. cbv in H. discriminate H.
Qed.

Lemma leb_not_nan_r (x y : float) : leb x y = true -> is_nan y = false.
Proof.
  intros H. destruct y; try reflexivity.
  destruct x; cbv in H; discriminate H.
Qed.

(** A value in the clamp range is an ordinary positive number. *)
Lemma in_clamp_range_shape (x : float) :
  in_clamp_range x = true -> exists m e, x = S754_finite false m e.
Proof.
  unfold in_clamp_range. intros H. apply andb_prop in H. destruct H as [Hlo Hhi].
  destruct x as [s | s | | s m e].
  - discriminate Hlo.
  - destruct s; [discriminate Hlo | discriminate Hhi].
  - discriminate Hlo.
  - destruct s; [discriminate Hlo | eauto].
Qed.

Lemma in_clamp_range_finite (x : float) :
  in_clamp_range x = true -> is_finite x = true.
Proof.
  intros H. destruct (in_clamp_range_shape x H) as (m & e & ->). reflexivity.
Qed.

(** *** Rounding never invents a NaN *)

Lemma iter_pos_preserves {A : Type} (P : A -> Prop) (f : A -> A) :
  (forall x, P x -> P (f x)) ->
  forall (n : positive) (x : A), P x -> P (iter_pos f n x).
Proof.
  intros Hf. induction n as [n IH | n IH | ]; intros x Hx; simpl; auto.
Qed.

Lemma shr_1_nonneg (mrs : shr_record) :
  0 <= shr_m mrs -> 0 <= shr_m (shr_1 mrs).
Proof.
  destruct mrs as [m r s]. simpl.
  destruct m as [ | [p | p | ] | [p | p | ]]; simpl; lia.
Qed.

Lemma shr_nonneg (mrs : shr_record) (e n : Z) :
  0 <= shr_m mrs -> 0 <= shr_m (fst (shr mrs e n)).
Proof.
  intros H. unfold shr. destruct n as [ | p | p]; simpl; auto.
  apply (iter_pos_preserves (fun r => 0 <= shr_m r)); auto using shr_1_nonneg.
Qed.

Lemma shr_fexp_nonneg (m e : Z) (l : location) :
  0 <= m -> 0 <= shr_m (fst (shr_fexp prec emax m e l)).
Proof.
  intros H. unfold shr_fexp. apply shr_nonneg.
  destruct l as [ | [ | | ]]; simpl; exact H.
Qed.

Lemma round_nearest_even_nonneg (m : Z) (l : location) :
  0 <= m -> 0 <= round_nearest_even m l.
Proof.
  intros H. unfold round_nearest_even.
  destruct l as [ | [ | | ]]; try destruct (Z.even m); lia.
Qed.

Lemma binary_round_aux_not_nan (s : bool) (m e : Z) (l : location) :
  0 <= m -> is_nan (binary_round_aux prec emax s m e l) = false.
Proof.
  intros H. unfold binary_round_aux.
  pose proof (shr_fexp_nonneg m e l H) as H1.
  destruct (shr_fexp prec emax m e l) as [mrs' e'] eqn:E1. simpl in H1.
  pose proof (shr_fexp_nonneg
                (round_nearest_even (shr_m mrs') (loc_of_shr_record mrs'))
                e' loc_Exact (round_nearest_even_nonneg _ _ H1)) as H2.
  destruct (shr_fexp prec emax
              (round_nearest_even (shr_m mrs') (loc_of_shr_record mrs'))
              e' loc_Exact) as [mrs'' e''] eqn:E2.
  simpl in H2.
  destruct (shr_m mrs'') as [ | p | p]; simpl.
  - reflexivity.
  - destruct (_ <=? _); reflexivity.
  - lia.
Qed.

Lemma binary_normalize_not_nan (m e : Z) (s : bool) :
  is_nan (binary_normalize prec emax m e s) = false.
Proof.
  unfold binary_normalize, binary_round.
  destruct m as [ | p | p]; simpl; try reflexivity.
  - destruct (shl_align p e _) as [mz ez].
    apply binary_round_aux_not_nan. lia.
  - destruct (shl_align p e _) as [mz ez].
    apply binary_round_aux_not_nan. lia.
Qed.

Lemma sub_finite_not_nan (x y : float) :
  is_finite x = true -> is_finite y = true -> is_nan (sub x y) = false.
Proof.
  destruct x as [sx | sx | | sx mx ex], y as [sy | sy | | sy my ey];
    simpl; try discriminate; intros _ _.
  - destruct sx, sy; reflexivity.
  - reflexivity.
  - reflexivity.
  - apply binary_normalize_not_nan.
Qed.

Lemma mul_finite_nonzero_not_nan (s : bool) (m : positive) (e : Z) (y : float) :
  is_nan y = false -> is_nan (mul (S754_finite s m e) y) = false.
Proof.
  destruct y as [sy | sy | | sy my ey]; simpl; try discriminate; intros _;
    try reflexivity.
  apply binary_round_aux_not_nan. lia.
Qed.

Lemma add_finite_not_nan (x y : float) :
  is_finite x = true -> is_nan y = false -> is_nan (add x y) = false.
Proof.
  destruct x as [sx | sx | | sx mx ex], y as [sy | sy | | sy my ey];
    simpl; try discriminate; intros _ _; try reflexivity.
  - destruct sx, sy; reflexivity.
  - apply binary_normalize_not_nan.
Qed.

(** *** A zero error *)

Lemma finite_compare_eq (s1 s2 : bool) (m1 m2 : positive) (e1 e2 : Z) :
  SFcompare (S754_finite s1 m1 e1) (S754_finite s2 m2 e2) = Some Eq ->
  s1 = s2 /\ m1 = m2 /\ e1 = e2.
Proof.
  simpl. destruct s1, s2; try discriminate;
    destruct (Z.compare_spec e1 e2) as [He | He | He]; try discriminate;
    intros H; injection H as H.
  - assert (Hc : (m1 ?= m2)%positive = Eq).
    { unfold Pos.compare. destruct (Pos.compare_cont Eq m1 m2); simpl in H;
        congruence. }
    apply Pos.compare_eq in Hc. auto.
  - apply (Pos.compare_eq m1 m2) in H. auto.
Qed.

Lemma sub_self_zero (s : bool) (m : positive) (e : Z) :
  sub (S754_finite s m e) (S754_finite s m e) = S754_zero false.
Proof.
  unfold sub, SFsub. rewrite Z.sub_diag. reflexivity.
Qed.

(** When [edge == target] holds and the target is finite, the gap is a
    zero. *)
Lemma sub_eqb_zero (t m : float) :
  is_finite t = true -> eqb m t = true -> exists s, sub t m = S754_zero s.
Proof.
  unfold eqb, SFeqb. intros Ht H.
  destruct (SFcompare m t) as [[ | | ] | ] eqn:Hc; try discriminate. clear H.
  destruct t as [st | st | | st mt et]; try discriminate;
    destruct m as [sm | sm | | sm mm em]; try discriminate;
    try (simpl in Hc; destruct sm; discriminate Hc);
    try (simpl in Hc; destruct st; discriminate Hc).
  - destruct st, sm; simpl; eauto.
  - apply finite_compare_eq in Hc. destruct Hc as (-> & -> & ->).
    rewrite sub_self_zero. eauto.
Qed.

Lemma mul_zero_r (s : bool) (m : positive) (e : Z) (sz : bool) :
  mul (S754_finite s m e) (S754_zero sz) = S754_zero (xorb s sz).
Proof. reflexivity. Qed.

Lemma add_zero_r (s : bool) (m : positive) (e : Z) (sz : bool) :
  add (S754_finite s m e) (S754_zero sz) = S754_finite s m e.
Proof. reflexivity. Qed.

End FloatFacts.

(* ================================================================== *)
(** * Part III: the adjustment step *)
(* ================================================================== *)

Section Adjust.

Context {E : Type}.

(** The two sequential [if]s of [adjust] are a clamp. *)
Lemma adjust_eq (self : AutoBalancer E) (edge : float) (config : Config) :
  adjust self edge config =
  (tt, set_bust_multiplier
         (adjust_spec (target self) (learning_rate self) edge
            (bust_multiplier config)) config).
Proof.
  unfold adjust, adjust_spec, clamp, py_max, py_min, gtb.
  cbn [bust_multiplier set_bust_multiplier].
  set (x := add (bust_multiplier config)
                (mul (learning_rate self) (sub (target self) edge))).
  destruct (ltb x lit_0_5) eqn:Hlo; cbn [bust_multiplier set_bust_multiplier].
  - reflexivity.
  - destruct (ltb lit_3_0 x) eqn:Hhi; reflexivity.
Qed.

Lemma adjust_bust_multiplier (self : AutoBalancer E) (edge : float)
    (config : Config) :
  bust_multiplier (snd (adjust self edge config)) =
  adjust_spec (target self) (learning_rate self) edge (bust_multiplier config).
Proof. rewrite adjust_eq. reflexivity. Qed.

Lemma adjust_static (self : AutoBalancer E) (edge : float) (config : Config) :
  same_static_inputs config (snd (adjust self edge config)).
Proof. rewrite adjust_eq. unfold same_static_inputs. simpl. tauto. Qed.

Lemma same_static_refl (c : Config) : same_static_inputs c c.
Proof. unfold same_static_inputs. tauto. Qed.

Lemma same_static_trans (c1 c2 c3 : Config) :
  same_static_inputs c1 c2 -> same_static_inputs c2 c3 ->
  same_static_inputs c1 c3.
Proof.
  unfold same_static_inputs.
  intros (H1 & H2 & H3 & H4 & H5) (K1 & K2 & K3 & K4 & K5).
  repeat split; congruence.
Qed.

Lemma adjust_seq_static (self : AutoBalancer E) (edges : list float) :
  forall config, same_static_inputs config (adjust_seq self edges config).
Proof.
  unfold adjust_seq.
  induction edges as [ | e edges IH]; intros config; cbn [fold_left].
  - apply same_static_refl.
  - eapply same_static_trans; [apply adjust_static | apply IH].
Qed.

(** The actuator after a series of calls is a function of the actuator
    before it and of nothing else in the config. *)
Lemma adjust_seq_bust_multiplier (self : AutoBalancer E) (edges : list float) :
  forall config,
    bust_multiplier (adjust_seq self edges config) =
    fold_left
      (fun a e => adjust_spec (target self) (learning_rate self) e a)
      edges (bust_multiplier config).
Proof.
  unfold adjust_seq.
  induction edges as [ | e edges IH]; intros config; cbn [fold_left].
  - reflexivity.
  - rewrite IH, adjust_bust_multiplier. reflexivity.
Qed.

(** *** The clamp *)

Lemma clamp_in_range (x : float) :
  is_nan x = false -> in_clamp_range (clamp lit_0_5 lit_3_0 x) = true.
Proof.
  intros Hx. unfold clamp, py_max, py_min, gtb.
  destruct (ltb x lit_0_5) eqn:Hlo.
  - reflexivity.
  - destruct (ltb lit_3_0 x) eqn:Hhi.
    + reflexivity.
    + unfold in_clamp_range.
      rewrite (not_ltb_leb x lit_0_5 Hx eq_refl Hlo).
      rewrite (not_ltb_leb lit_3_0 x eq_refl Hx Hhi).
      reflexivity.
Qed.

Lemma clamp_nan : clamp lit_0_5 lit_3_0 nan = nan.
Proof. reflexivity. Qed.

Lemma clamp_id_in_range (x : float) :
  in_clamp_range x = true -> clamp lit_0_5 lit_3_0 x = x.
Proof.
  unfold in_clamp_range. intros H. apply andb_prop in H. destruct H as [Hlo Hhi].
  unfold clamp, py_max, py_min, gtb.
  rewrite (leb_not_ltb _ _ Hlo), (leb_not_ltb _ _ Hhi). reflexivity.
Qed.

(** With a finite target and a finite statistic, the value [adjust]
    computes before clamping is a number (possibly infinite). *)
Lemma update_not_nan (t edge a : float) :
  is_finite t = true -> is_finite edge = true -> is_finite a = true ->
  is_nan (add a (mul lit_0_8 (sub t edge))) = false.
Proof.
  intros Ht He Ha. apply add_finite_not_nan; [exact Ha | ].
  apply mul_finite_nonzero_not_nan. apply sub_finite_not_nan; assumption.
Qed.

Lemma adjust_step_in_range (ec : E) (config0 config : Config) (edge : float) :
  is_finite (target_edge config0) = true ->
  is_finite edge = true ->
  is_finite (bust_multiplier config) = true ->
  in_clamp_range
    (bust_multiplier (snd (adjust (init ec config0) edge config))) = true.
Proof.
  intros Ht He Ha. rewrite adjust_bust_multiplier. unfold adjust_spec. simpl.
  apply clamp_in_range. apply update_not_nan; assumption.
Qed.

Lemma adjust_seq_finite (ec : E) (config0 : Config) (edges : list float) :
  is_finite (target_edge config0) = true ->
  Forall (fun e => is_finite e = true) edges ->
  forall config,
    is_finite (bust_multiplier config) = true ->
    is_finite (bust_multiplier (adjust_seq (init ec config0) edges config))
    = true.
Proof.
  intros Ht Hall. unfold adjust_seq.
  induction Hall as [ | e edges He Hall IH]; intros config Ha;
    cbn [fold_left].
  - exact Ha.
  - apply IH. apply in_clamp_range_finite.
    apply adjust_step_in_range; assumption.
Qed.

End Adjust.

(* ================================================================== *)
(** * Part IV: the control loop *)
(* ================================================================== *)

Section RunFacts.

Context {W Result : Type}.
Variable house_edge : Result -> float.

Let Self : Type := AutoBalancer (EngineClass W Result).

Lemma run_loop_shape (self : Self) (k : nat) (i : Z) (res : option Result)
    (config : Config) (w : W) :
  IterationShape house_edge self k i config w
    (run_loop house_edge self (S k) i res config w).
Proof.
  cbn [run_loop].
  destruct (construct (engine_class self) config w) as [[eng | e] w1] eqn:Hc.
  - destruct (simulate (engine_class self) eng w1) as [[r | e] w2] eqn:Hs.
    + destruct (in_band self (house_edge r)) eqn:Hb.
      * eapply shape_in_band;
          [unfold engine_call; rewrite Hc; exact Hs | exact Hb | reflexivity].
      * eapply shape_adjusted;
          [unfold engine_call; rewrite Hc; exact Hs | exact Hb | reflexivity].
    + eapply shape_raised;
        [unfold engine_call; rewrite Hc; exact Hs | right; reflexivity
        | reflexivity].
  - eapply shape_raised;
      [unfold engine_call; rewrite Hc; reflexivity | left; reflexivity
      | reflexivity].
Qed.

(** An iteration whose statistic is in the band ends the run there. *)
Lemma run_loop_in_band (self : Self) (k : nat) (i : Z) (res : option Result)
    (config : Config) (w : W) (r : Result) (w' : W) :
  engine_call (engine_class self) config w = (Returned r, w') ->
  in_band self (house_edge r) = true ->
  run_loop house_edge self (S k) i res config w =
  {| outcome := Returned r; final_config := config; final_world := w';
     trace := [EvSimulate config (Returned r);
               EvPrintIteration i (house_edge r);
               EvPrintStabilized] |}.
Proof.
  intros Hcall Hband.
  destruct (run_loop_shape self k i res config w)
    as [e w1 ev Hcall' _ _ | r1 w1 Hcall' _ HR | r1 w1 Hcall' Hband' _];
    rewrite Hcall in Hcall'; inversion Hcall'; subst.
  - exact HR.
  - congruence.
Qed.

Lemma run_loop_out_of_band (self : Self) (k : nat) (i : Z)
    (res : option Result) (config : Config) (w : W) (r : Result) (w' : W) :
  engine_call (engine_class self) config w = (Returned r, w') ->
  in_band self (house_edge r) = false ->
  run_loop house_edge self (S k) i res config w =
  after_events
    [EvSimulate config (Returned r);
     EvPrintIteration i (house_edge r);
     EvAdjust (house_edge r) (snd (adjust self (house_edge r) config))]
    (run_loop house_edge self k (i + 1) (Some r)
       (snd (adjust self (house_edge r) config)) w').
Proof.
  intros Hcall Hband.
  destruct (run_loop_shape self k i res config w)
    as [e w1 ev Hcall' _ _ | r1 w1 Hcall' Hband' _ | r1 w1 Hcall' _ HR];
    rewrite Hcall in Hcall'; inversion Hcall'; subst.
  - congruence.
  - exact HR.
Qed.

(** *** Exhaustion *)

Lemma run_loop_exhausts (self : Self) :
  never_in_band house_edge self ->
  forall (k : nat) (i : Z) (res : option Result) (config : Config) (w : W),
    let R := run_loop house_edge self k i res config w in
    count_simulate (trace R) = k /\
    count_adjust (trace R) = k /\
    outcome R =
      match last_result (trace R), res with
      | Some r, _ => Returned r
      | None, Some r => Returned r
      | None, None => Raised (UnboundLocalError "result")
      end /\
    (k <> O -> last_result (trace R) <> None).
Proof.
  intros Hnever. induction k as [ | k IH]; intros i res config w R.
  - subst R. simpl. destruct res; repeat split; congruence.
  - destruct (Hnever config w) as (r & w' & Hcall & Hband).
    subst R. rewrite (run_loop_out_of_band self k i res config w r w' Hcall Hband).
    specialize (IH (i + 1) (Some r) (snd (adjust self (house_edge r) config)) w').
    cbv zeta in IH. destruct IH as (Hs & Ha & Ho & Hl).
    cbn [after_events trace outcome app count_simulate count_adjust last_result].
    rewrite Hs, Ha, Ho.
    destruct (last_result (trace (run_loop house_edge self k (i + 1) (Some r)
                (snd (adjust self (house_edge r) config)) w'))) as [r' | ];
      repeat split; congruence.
Qed.

(** *** The frame of [run] *)

Lemma run_loop_static (self : Self) :
  forall (k : nat) (i : Z) (res : option Result) (config : Config) (w : W),
    let R := run_loop house_edge self k i res config w in
    same_static_inputs config (final_config R) /\
    Forall (same_static_inputs config) (trace_configs (trace R)).
Proof.
  induction k as [ | k IH]; intros i res config w R.
  - subst R. simpl. split; [apply same_static_refl | constructor].
  - subst R.
    destruct (run_loop_shape self k i res config w)
      as [e w1 ev _ Hev HR | r w1 _ _ HR | r w1 _ _ HR]; rewrite HR; clear HR.
    + cbn [final_config trace]. split; [apply same_static_refl | ].
      destruct Hev as [-> | ->]; cbn [trace_configs];
        repeat constructor; apply same_static_refl.
    + cbn [final_config trace trace_configs].
      split; [apply same_static_refl | ].
      repeat constructor; apply same_static_refl.
    + specialize (IH (i + 1) (Some r)
                     (snd (adjust self (house_edge r) config)) w1).
      cbv zeta in IH. destruct IH as [Hf Ht].
      pose proof (adjust_static self (house_edge r) config) as Hstep.
      cbn [after_events final_config trace app trace_configs].
      split.
      * eapply same_static_trans; eassumption.
      * constructor; [apply same_static_refl | ].
        constructor; [exact Hstep | ].
        eapply Forall_impl; [ | exact Ht].
        intros c Hc. eapply same_static_trans; eassumption.
Qed.

(** *** No iteration, no result *)

Lemma run_nonpositive (self : Self) (max_iterations : Z) (config : Config)
    (w : W) :
  max_iterations <= 0 ->
  run house_edge self max_iterations config w =
  {| outcome := Raised (UnboundLocalError "result"); final_config := config;
     final_world := w; trace := [] |}.
Proof.
  intros Hn. unfold run.
  replace (Z.to_nat max_iterations) with O by lia. reflexivity.
Qed.

End RunFacts.

(** *** Determinism in the observations *)

Section Determinism.

Context {W1 W2 Result : Type}.
Variable house_edge : Result -> float.
Variable self1 : AutoBalancer (EngineClass W1 Result).
Variable self2 : AutoBalancer (EngineClass W2 Result).
Hypothesis Hsame : same_controller self1 self2.

Lemma same_controller_in_band (x : float) : in_band self1 x = in_band self2 x.
Proof.
  destruct Hsame as (Hmin & Hmax & _). unfold in_band.
  rewrite Hmin, Hmax. reflexivity.
Qed.

Lemma same_controller_adjust (x : float) (config : Config) :
  adjust self1 x config = adjust self2 x config.
Proof.
  destruct Hsame as (_ & _ & Ht & Hl). rewrite !adjust_eq, Ht, Hl. reflexivity.
Qed.

Lemma same_controller_stop (R1 : RunEnd W1 Result) (R2 : RunEnd W2 Result) :
  outcome_map house_edge (outcome R1) = outcome_map house_edge (outcome R2) ->
  stop_decision house_edge self1 R1 = stop_decision house_edge self2 R2.
Proof.
  unfold stop_decision.
  destruct (outcome R1) as [r1 | e1], (outcome R2) as [r2 | e2]; simpl;
    intros H; try discriminate; [ | reflexivity].
  injection H as H. rewrite H, same_controller_in_band. reflexivity.
Qed.

Lemma run_loop_deterministic :
  forall (k : nat) (i : Z) (res1 res2 : option Result) (config : Config)
         (w1 : W1) (w2 : W2),
    let R1 := run_loop house_edge self1 k i res1 config w1 in
    let R2 := run_loop house_edge self2 k i res2 config w2 in
    observations house_edge (trace R1) = observations house_edge (trace R2) ->
    option_map house_edge res1 = option_map house_edge res2 ->
    actuators (trace R1) = actuators (trace R2) /\
    final_config R1 = final_config R2 /\
    outcome_map house_edge (outcome R1) = outcome_map house_edge (outcome R2) /\
    (engine_outcomes (trace R1) = engine_outcomes (trace R2) ->
     res1 = res2 -> outcome R1 = outcome R2).
Proof.
  induction k as [ | k IH]; intros i res1 res2 config w1 w2 R1 R2 Hobs Hres.
  - subst R1 R2. simpl.
    destruct res1 as [r1 | ], res2 as [r2 | ]; simpl in Hres; try discriminate;
      repeat split; simpl; congruence.
  - subst R1 R2. revert Hobs. unfold observations.
    destruct (run_loop_shape house_edge self1 k i res1 config w1)
      as [e1 v1 ev1 _ Hev1 HR1 | r1 v1 _ Hb1 HR1 | r1 v1 _ Hb1 HR1];
    destruct (run_loop_shape house_edge self2 k i res2 config w2)
      as [e2 v2 ev2 _ Hev2 HR2 | r2 v2 _ Hb2 HR2 | r2 v2 _ Hb2 HR2];
    rewrite HR1, HR2; clear HR1 HR2;
    try (destruct Hev1 as [-> | ->]); try (destruct Hev2 as [-> | ->]);
    cbn [after_events trace outcome final_config app engine_outcomes map
         outcome_map actuators];
    intros Hobs; try discriminate Hobs.
    1-4: injection Hobs as He; subst e2; repeat split; reflexivity.
    + injection Hobs as He. repeat split; try congruence.
    + injection Hobs as He Hnil. rewrite <- He, <- same_controller_in_band in Hb2.
      congruence.
    + injection Hobs as He Hnil. rewrite <- He, <- same_controller_in_band in Hb2.
      congruence.
    + pose proof (f_equal (@tl _) Hobs) as Htl. cbn [tl] in Htl.
      assert (He : house_edge r1 = house_edge r2) by congruence.
      assert (Hadj : snd (adjust self2 (house_edge r2) config) =
                     snd (adjust self1 (house_edge r1) config))
        by (rewrite <- He, same_controller_adjust; reflexivity).
      rewrite Hadj in Htl |- *.
      specialize (IH (i + 1) (Some r1) (Some r2)
                     (snd (adjust self1 (house_edge r1) config)) v1 v2).
      cbv zeta in IH. unfold observations in IH.
      destruct (IH Htl) as (Ha & Hf & Ho & Hout).
      { simpl. rewrite He. reflexivity. }
      repeat split.
      * rewrite Ha. reflexivity.
      * exact Hf.
      * exact Ho.
      * intros Heo _. apply Hout.
        -- exact (f_equal (@tl _) Heo).
        -- congruence.
Qed.

End Determinism.

(* ================================================================== *)
(** * Part V: stub engines *)
(* ================================================================== *)

Section Stubs.

Variable f : float -> float.
Variable config0 : Config.

Let self : AutoBalancer (EngineClass unit float) := init (stub_engine f) config0.

Lemma stub_engine_call (config : Config) (w : unit) :
  engine_call (engine_class self) config w =
  (Returned (f (bust_multiplier config)), w).
Proof. reflexivity. Qed.

(** A run against a stub always returns; it returns the statistic of the
    last actuator it tried, and that is the only one that can be in the
    band. *)
Lemma stub_loop_returns :
  forall (k : nat) (i : Z) (res : option float) (config : Config),
    let R := run_loop stub_house_edge self (S k) i res config tt in
    exists r : float,
      outcome R = Returned r /\
      In r (map f (visited (trace R))) /\
      hd_error (visited (trace R)) = Some (bust_multiplier config) /\
      (count_simulate (trace R) <= S k)%nat /\
      (forall a, In a (visited (trace R)) ->
                 in_band self (f a) = true -> in_band self r = true) /\
      (in_band self r = false -> count_simulate (trace R) = S k).
Proof.
  induction k as [ | k IH]; intros i res config R; subst R;
    destruct (in_band self (f (bust_multiplier config))) eqn:Hb.
  - rewrite (run_loop_in_band stub_house_edge self 0 i res config tt _ tt
               (stub_engine_call config tt) Hb).
    exists (f (bust_multiplier config)). simpl.
    repeat split; auto; try lia;
      try (intros a [<- | []] _; exact Hb);
      try (unfold stub_house_edge in Hb; congruence).
  - rewrite (run_loop_out_of_band stub_house_edge self 0 i res config tt _ tt
               (stub_engine_call config tt) Hb).
    exists (f (bust_multiplier config)). simpl.
    repeat split; auto; try (intros a [<- | []] Ha; exact Ha).
  - rewrite (run_loop_in_band stub_house_edge self (S k) i res config tt _ tt
               (stub_engine_call config tt) Hb).
    exists (f (bust_multiplier config)). simpl.
    repeat split; auto; try lia;
      try (intros a [<- | []] _; exact Hb);
      try (unfold stub_house_edge in Hb; congruence).
  - rewrite (run_loop_out_of_band stub_house_edge self (S k) i res config tt _
               tt (stub_engine_call config tt) Hb).
    specialize (IH (i + 1) (Some (f (bust_multiplier config)))
                   (snd (adjust self (stub_house_edge (f (bust_multiplier config)))
                           config))).
    cbv zeta in IH. destruct IH as (r & Ho & Hin & _ & Hle & Hvis & Hex).
    exists r.
    cbn [after_events outcome trace app visited count_simulate map hd_error].
    repeat split.
    + exact Ho.
    + right. exact Hin.
    + lia.
    + intros a [<- | Ha] Hba.
      * unfold stub_house_edge in Hb. congruence.
      * exact (Hvis a Ha Hba).
    + intros Hr. rewrite (Hex Hr). reflexivity.
Qed.

End Stubs.

(** *** The order-reversing stub *)

Lemma digits2_pos_bound (m : positive) : Zpos m < 2 ^ Zpos (digits2_pos m).
Proof.
  induction m as [m IH | m IH | ]; cbn [digits2_pos].
  - rewrite Pos2Z.inj_succ, Z.pow_succ_r by lia. lia.
  - rewrite Pos2Z.inj_succ, Z.pow_succ_r by lia. lia.
  - reflexivity.
Qed.

(** A binary64 value at or above [2^-1] is normal: its mantissa has 53 bits. *)
Lemma valid_mantissa_bound (s : bool) (m : positive) (e : Z) :
  valid (S754_finite s m e) = true -> -53 <= e -> Zpos m < 9007199254740992.
Proof.
  unfold valid, valid_binary, bounded, canonical_mantissa, fexp, SpecFloat.emin.
  intros H He. apply andb_prop in H. destruct H as [Hc _].
  apply Z.eqb_eq in Hc.
  assert (Hd : Zpos (digits2_pos m) = 53) by (unfold prec, emax in Hc; lia).
  pose proof (digits2_pos_bound m) as Hb. rewrite Hd in Hb.
  exact Hb.
Qed.

Lemma ltb_positive_finite (m1 m2 : positive) (e1 e2 : Z) :
  ltb (S754_finite false m1 e1) (S754_finite false m2 e2) = true <->
  e1 < e2 \/ (e1 = e2 /\ Zpos m1 < Zpos m2).
Proof.
  unfold ltb, SFltb. cbn [SFcompare].
  change (Pos.compare_cont Eq m1 m2) with (Pos.compare m1 m2).
  destruct (Z.compare_spec e1 e2) as [He | He | He];
    destruct (Pos.compare_spec m1 m2) as [Hm | Hm | Hm];
    split; intros H; try discriminate; try reflexivity; try lia.
Qed.

Lemma leb_positive_finite_exponent (m1 m2 : positive) (e1 e2 : Z) :
  leb (S754_finite false m1 e1) (S754_finite false m2 e2) = true -> e1 <= e2.
Proof.
  unfold leb, SFleb. cbn [SFcompare].
  destruct (Z.compare_spec e1 e2) as [He | He | He]; intros H;
    try discriminate; lia.
Qed.

Lemma mirror_stub_decreasing : strictly_decreasing_on_clamp_range mirror_stub.
Proof.
  intros a b Va Vb Hlo Hlt Hhi.
  destruct a as [sa | sa | | sa ma ea]; try discriminate Hlo.
  - destruct sa; [discriminate Hlo | ].
    destruct b as [sb | [ | ] | | sb mb eb]; discriminate Hlt.
  - destruct sa; [discriminate Hlo | ].
    destruct b as [sb | sb | | sb mb eb]; try discriminate Hlt.
    + destruct sb; [discriminate Hlt | discriminate Hhi].
    + destruct sb; [discriminate Hlt | ].
      pose proof (leb_positive_finite_exponent _ _ _ _ Hlo) as Hea.
      apply ltb_positive_finite in Hlt.
      pose proof (valid_mantissa_bound false ma ea Va Hea) as Hma.
      assert (Heb : -53 <= eb) by lia.
      pose proof (valid_mantissa_bound false mb eb Vb Heb) as Hmb.
      unfold mirror_stub. apply ltb_positive_finite.
      destruct Hlt as [He | [He Hm]]; [left; lia | right].
      split; [lia | ].
      rewrite !Z2Pos.id by lia. lia.
Qed.

Lemma digits2_pos_lower (m : positive) :
  2 ^ (Zpos (digits2_pos m) - 1) <= Zpos m.
Proof.
  induction m as [m IH | m IH | ]; cbn [digits2_pos].
  - replace (Zpos (Pos.succ (digits2_pos m)) - 1)
      with (Z.succ (Zpos (digits2_pos m) - 1)) by lia.
    rewrite Z.pow_succ_r by lia. lia.
  - replace (Zpos (Pos.succ (digits2_pos m)) - 1)
      with (Z.succ (Zpos (digits2_pos m) - 1)) by lia.
    rewrite Z.pow_succ_r by lia. lia.
  - reflexivity.
Qed.

Lemma digits2_pos_53 (m : positive) :
  4503599627370496 <= Zpos m < 9007199254740992 ->
  Zpos (digits2_pos m) = 53.
Proof.
  intros [Hlo Hhi].
  pose proof (digits2_pos_bound m) as Hub.
  pose proof (digits2_pos_lower m) as Hlb.
  destruct (Z_lt_le_dec (Zpos (digits2_pos m)) 53) as [Hd | Hd].
  - pose proof (Z.pow_le_mono_r 2 (Zpos (digits2_pos m)) 52 ltac:(lia)
                  ltac:(lia)) as Hp.
    change (2 ^ 52) with 4503599627370496 in Hp. lia.
  - destruct (Z_lt_le_dec 53 (Zpos (digits2_pos m))) as [Hd' | Hd']; [ | lia].
    pose proof (Z.pow_le_mono_r 2 53 (Zpos (digits2_pos m) - 1) ltac:(lia)
                  ltac:(lia)) as Hp.
    change (2 ^ 53) with 9007199254740992 in Hp. lia.
Qed.

Lemma valid_mantissa_lower (s : bool) (m : positive) (e : Z) :
  valid (S754_finite s m e) = true -> -53 <= e -> 4503599627370496 <= Zpos m.
Proof.
  unfold valid, valid_binary, bounded, canonical_mantissa, fexp, SpecFloat.emin.
  intros H He. apply andb_prop in H. destruct H as [Hc _].
  apply Z.eqb_eq in Hc.
  assert (Hd : Zpos (digits2_pos m) = 53) by (unfold prec, emax in Hc; lia).
  pose proof (digits2_pos_lower m) as Hb. rewrite Hd in Hb.
  exact Hb.
Qed.

(** On the clamp range the stub yields binary64 values. *)
Lemma mirror_stub_valid (a : float) :
  valid a = true -> in_clamp_range a = true -> valid (mirror_stub a) = true.
Proof.
  intros Va Hin.
  destruct (in_clamp_range_shape a Hin) as (m & e & ->).
  unfold in_clamp_range in Hin. apply andb_prop in Hin. destruct Hin as [Hlo Hhi].
  pose proof (leb_positive_finite_exponent _ _ _ _ Hlo) as He1.
  pose proof (leb_positive_finite_exponent _ _ _ _ Hhi) as He2.
  pose proof (valid_mantissa_bound false m e Va He1) as Hub.
  pose proof (valid_mantissa_lower false m e Va He1) as Hlb.
  unfold mirror_stub, valid, valid_binary, bounded, canonical_mantissa, fexp,
    SpecFloat.emin.
  rewrite (digits2_pos_53 (Z.to_pos (13510798882111487 - Zpos m)))
    by (rewrite Z2Pos.id by lia; lia).
  apply andb_true_intro. split.
  - apply Z.eqb_eq. unfold prec, emax. lia.
  - apply Z.leb_le. unfold prec, emax. lia.
Qed.

Lemma mirror_stub_band_reachable : band_reachable mirror_stub.
Proof. exists lit_3_0. repeat split; reflexivity. Qed.

Lemma caller_play_bust_multiplier {E : Type} (self : AutoBalancer E)
    (ops : list CallerOp) :
  forall config,
    bust_multiplier (caller_play self ops config) =
    fold_left (fun a e => adjust_spec (target self) (learning_rate self) e a)
      (adjust_edges ops) (bust_multiplier config).
Proof.
  unfold caller_play.
  induction ops as [ | [edge | t] ops IH]; intros config;
    cbn [fold_left adjust_edges caller_step].
  - reflexivity.
  - rewrite IH, adjust_bust_multiplier. reflexivity.
  - rewrite IH. reflexivity.
Qed.

Lemma adjust_commutes_with_set_target {E : Type} (self : AutoBalancer E)
    (t edge : float) (config : Config) :
  adjust self edge (set_target_edge t config) =
  (tt, set_target_edge t (snd (adjust self edge config))).
Proof. rewrite !adjust_eq. reflexivity. Qed.

(** The scenario of section 8 of the specification, run on the code: from
    actuator 1.0 the statistic [0.20 / actuator] only moves away from the
    band, the actuator is pinned at 0.5 and the eight iterations are used up
    with the statistic at 0.4. *)
Lemma scenario_run_exhausts :
  outcome (run_stub scenario_stub 8 default_config) = Returned (literal 4 10) /\
  bust_multiplier (final_config (run_stub scenario_stub 8 default_config))
  = lit_0_5 /\
  count_simulate (trace (run_stub scenario_stub 8 default_config)) = 8%nat /\
  in_band (init tt default_config) (literal 4 10) = false.
Proof. vm_compute. repeat split; reflexivity. Qed.

(* ================================================================== *)
(** * Part VI: the properties of the specification *)
(* ================================================================== *)

(** ** C1: the clamp invariant *)

(** C1, as stated, fails: the property lets the config be anything and asks only
    that the measured statistic be finite.  With [bust_multiplier] holding
    NaN (the dataclass accepts it), [adjust(0.05)] adds to NaN, both
    comparisons of the clamp are false, and the actuator is still NaN, which
    is not within [[0.5, 3.0]]. *)
Lemma clamp_invariant_fails_on_nan :
  is_finite lit_0_05 = true /\
  bust_multiplier
    (snd (adjust (init tt (set_bust_multiplier nan default_config)) lit_0_05
            (set_bust_multiplier nan default_config))) = nan /\
  in_clamp_range
    (bust_multiplier
       (snd (adjust (init tt (set_bust_multiplier nan default_config)) lit_0_05
               (set_bust_multiplier nan default_config)))) = false /\
  ~ clamp_invariant_any_config.
Proof.
  repeat split; try reflexivity.
  intros H.
  specialize (H (set_bust_multiplier nan default_config) lit_0_05 eq_refl).
  vm_compute in H. discriminate H.
Qed.

(** C1, amended: when the target the balancer was built with is finite and
    the actuator is finite before the first call, then for every sequence of
    [adjust] calls with finite measured statistics the actuator lies within
    [[0.5, 3.0]] immediately after each call returns, however large the gap
    is (a gap that overflows to an infinity is clamped like any other). *)
Theorem adjust_clamp_invariant {E : Type} (ec : E) (config0 config : Config)
    (edges : list float) (edge : float) :
  is_finite (target_edge config0) = true ->
  is_finite (bust_multiplier config) = true ->
  Forall (fun e => is_finite e = true) edges ->
  is_finite edge = true ->
  in_clamp_range
    (bust_multiplier
       (snd (adjust (init ec config0) edge
               (adjust_seq (init ec config0) edges config)))) = true.
Proof.
  intros Ht Ha Hall He.
  apply adjust_step_in_range; [exact Ht | exact He | ].
  apply adjust_seq_finite; assumption.
Qed.

Lemma adjust_clamp_invariant_witness :
  in_clamp_range
    (bust_multiplier
       (snd (adjust (init tt default_config) (of_Z (-1000000))
               (adjust_seq (init tt default_config)
                  [literal 2 10; of_Z 1000000] default_config)))) = true.
Proof.
  apply (adjust_clamp_invariant tt default_config default_config
           [literal 2 10; of_Z 1000000] (of_Z (-1000000))).
  - reflexivity.
  - reflexivity.
  - repeat constructor.
  - reflexivity.
Defined.

(** ** C2: what [adjust] computes *)

(** C2: for every measured statistic [m] (finite or not) and every config
    state, [adjust(m)] computes [error = targetStatistic - m] with the target
    the balancer was built with, replaces the actuator of the config object
    by the clamp into [[0.5, 3.0]] of [old actuator + 0.8 * error], changes
    nothing else in it, and returns [None]. *)
Theorem adjust_refines_spec {E : Type} (ec : E) (config0 config : Config)
    (m : float) :
  adjust (init ec config0) m config =
  (tt, set_bust_multiplier
         (clamp lit_0_5 lit_3_0
            (add (bust_multiplier config)
                 (mul lit_0_8 (sub (target_edge config0) m))))
         config).
Proof. rewrite adjust_eq. reflexivity. Qed.

(** ** C3: exhaustion *)

(** C3: for an engine whose statistic never enters the band, [run] with
    [max_iterations >= 1] calls [simulate()] exactly [max_iterations] times
    (and [adjust] as often), and returns normally the record produced by the
    last of these calls. *)
Theorem exhaustion_returns_last_result {W Result : Type}
    (house_edge : Result -> float)
    (self : AutoBalancer (EngineClass W Result)) (max_iterations : Z)
    (config : Config) (w : W) :
  never_in_band house_edge self ->
  1 <= max_iterations ->
  exists r : Result,
    outcome (run house_edge self max_iterations config w) = Returned r /\
    last_result (trace (run house_edge self max_iterations config w)) = Some r /\
    Z.of_nat (count_simulate (trace (run house_edge self max_iterations config w)))
    = max_iterations /\
    Z.of_nat (count_adjust (trace (run house_edge self max_iterations config w)))
    = max_iterations.
Proof.
  intros Hnever Hn. unfold run.
  destruct (run_loop_exhausts house_edge self Hnever (Z.to_nat max_iterations)
              0 None config w) as (Hs & Ha & Ho & Hl).
  destruct (last_result
              (trace (run_loop house_edge self (Z.to_nat max_iterations) 0 None
                        config w))) as [r | ] eqn:Hlast.
  - exists r. rewrite Hs, Ha. repeat split; try assumption; lia.
  - exfalso. apply Hl; [lia | reflexivity].
Qed.

Lemma exhaustion_returns_last_result_witness :
  exists r : float,
    outcome (run_stub (fun _ => lit_1_0) 3 default_config) = Returned r /\
    last_result (trace (run_stub (fun _ => lit_1_0) 3 default_config)) = Some r /\
    Z.of_nat (count_simulate (trace (run_stub (fun _ => lit_1_0) 3 default_config)))
    = 3 /\
    Z.of_nat (count_adjust (trace (run_stub (fun _ => lit_1_0) 3 default_config)))
    = 3.
Proof.
  apply (exhaustion_returns_last_result stub_house_edge
           (init (stub_engine (fun _ => lit_1_0)) default_config) 3
           default_config tt).
  - intros config w. exists lit_1_0, w. split; reflexivity.
  - lia.
Defined.

(** ** C4: the band is inclusive *)

(** C4: the statistics 0.03 and 0.07 themselves pass the acceptance test, and
    whenever an iteration measures [x] with [0.03 <= x] and [x <= 0.07], the
    loop stops in that iteration: [run] returns the record just produced,
    prints the two lines, and neither calls [adjust] nor touches the config.
    This holds for any iteration of the loop, and so for the first one of
    [run(max_iterations)] with [max_iterations >= 1]. *)
Theorem band_inclusive_stops {W Result : Type} (house_edge : Result -> float)
    (ec : EngineClass W Result) (config0 config : Config) (w w' : W)
    (r : Result) :
  engine_call ec config w = (Returned r, w') ->
  leb lit_0_03 (house_edge r) = true ->
  leb (house_edge r) lit_0_07 = true ->
  in_band (init ec config0) lit_0_03 = true /\
  in_band (init ec config0) lit_0_07 = true /\
  (forall (k : nat) (i : Z) (res : option Result),
     run_loop house_edge (init ec config0) (S k) i res config w =
     {| outcome := Returned r; final_config := config; final_world := w';
        trace := [EvSimulate config (Returned r);
                  EvPrintIteration i (house_edge r);
                  EvPrintStabilized] |}) /\
  (forall max_iterations : Z,
     1 <= max_iterations ->
     run house_edge (init ec config0) max_iterations config w =
     {| outcome := Returned r; final_config := config; final_world := w';
        trace := [EvSimulate config (Returned r);
                  EvPrintIteration 0 (house_edge r);
                  EvPrintStabilized] |}).
Proof.
  intros Hcall Hlo Hhi.
  assert (Hband : in_band (init ec config0) (house_edge r) = true).
  { unfold in_band. cbn [min_edge max_edge init]. rewrite Hlo, Hhi. reflexivity. }
  split; [reflexivity | ]. split; [reflexivity | ]. split.
  - intros k i res. apply run_loop_in_band; assumption.
  - intros n Hn. unfold run.
    destruct (Z.to_nat n) as [ | k] eqn:Hk; [lia | ].
    apply run_loop_in_band; assumption.
Qed.

Lemma band_inclusive_stops_witness :
  run_stub (fun _ => lit_0_07) 8 default_config =
  {| outcome := Returned lit_0_07; final_config := default_config;
     final_world := tt;
     trace := [EvSimulate default_config (Returned lit_0_07);
               EvPrintIteration 0 lit_0_07;
               EvPrintStabilized] |}.
Proof.
  refine (proj2 (proj2 (proj2
            (band_inclusive_stops stub_house_edge
               (stub_engine (fun _ => lit_0_07)) default_config default_config
               tt tt lit_0_07 _ _ _))) 8 _).
  - reflexivity.
  - reflexivity.
  - reflexivity.
  - lia.
Defined.

(** ** C5: convergence against monotone stubs *)

(** C5, as stated, fails.  [mirror_stub] is strictly decreasing on the clamp
    range and puts the statistic inside the band at actuator 3.0, yet
    [run(8)] from the default config never converges: the statistic starts
    above the band, so the gap is negative and [adjust] lowers the actuator,
    which raises a decreasing statistic further; the actuator ends pinned at
    0.5. *)
Lemma monotone_stub_does_not_converge :
  strictly_decreasing_on_clamp_range mirror_stub /\
  band_reachable mirror_stub /\
  (exists r : float,
     outcome (run_stub mirror_stub 8 default_config) = Returned r /\
     in_band (init (stub_engine mirror_stub) default_config) r = false) /\
  bust_multiplier (final_config (run_stub mirror_stub 8 default_config))
  = lit_0_5 /\
  ~ convergence_under_monotone_stubs.
Proof.
  split; [exact mirror_stub_decreasing | ].
  split; [exact mirror_stub_band_reachable | ].
  split.
  - exists (mirror_stub lit_0_5). split; vm_compute; reflexivity.
  - split; [vm_compute; reflexivity | ].
    intros H.
    destruct (H mirror_stub default_config 8 mirror_stub_decreasing
                mirror_stub_band_reachable ltac:(lia)) as (r & Hr & Hb).
    vm_compute in Hr. injection Hr as <-.
    vm_compute in Hb. discriminate Hb.
Qed.

(** C5, amended: for every deterministic stub engine (monotone or not) and
    [max_iterations >= 1], [run] terminates after at most [max_iterations]
    simulations and returns a record; the first simulation is at the starting
    actuator; the run converges exactly when the statistic is inside the band
    at one of the actuator values the controller itself visits, and
    otherwise it has run exactly [max_iterations] simulations.  That some
    actuator of the clamp range would give a statistic in the band does not
    by itself make the run converge. *)
Theorem stub_run_converges_iff_visited (f : float -> float) (config : Config)
    (max_iterations : Z) :
  1 <= max_iterations ->
  exists r : float,
    outcome (run_stub f max_iterations config) = Returned r /\
    hd_error (visited (trace (run_stub f max_iterations config)))
    = Some (bust_multiplier config) /\
    Z.of_nat (count_simulate (trace (run_stub f max_iterations config)))
    <= max_iterations /\
    (in_band (init (stub_engine f) config) r = true <->
     exists a : float,
       In a (visited (trace (run_stub f max_iterations config))) /\
       in_band (init (stub_engine f) config) (f a) = true) /\
    (in_band (init (stub_engine f) config) r = false ->
     Z.of_nat (count_simulate (trace (run_stub f max_iterations config)))
     = max_iterations).
Proof.
  intros Hn. unfold run_stub, run.
  destruct (Z.to_nat max_iterations) as [ | k] eqn:Hk; [lia | ].
  destruct (stub_loop_returns f config k 0 None config)
    as (r & Ho & Hin & Hhd & Hle & Hvis & Hex).
  exists r. split; [exact Ho | ]. split; [exact Hhd | ]. split; [lia | ]. split.
  - split.
    + intros Hb. apply in_map_iff in Hin. destruct Hin as (a & <- & Ha).
      exists a. split; assumption.
    + intros (a & Ha & Hb). exact (Hvis a Ha Hb).
  - intros Hb. rewrite (Hex Hb). lia.
Qed.

Lemma stub_run_converges_iff_visited_witness :
  exists r : float,
    outcome (run_stub scenario_stub 8 default_config) = Returned r /\
    hd_error (visited (trace (run_stub scenario_stub 8 default_config)))
    = Some (bust_multiplier default_config) /\
    Z.of_nat (count_simulate (trace (run_stub scenario_stub 8 default_config)))
    <= 8 /\
    (in_band (init (stub_engine scenario_stub) default_config) r = true <->
     exists a : float,
       In a (visited (trace (run_stub scenario_stub 8 default_config))) /\
       in_band (init (stub_engine scenario_stub) default_config)
         (scenario_stub a) = true) /\
    (in_band (init (stub_engine scenario_stub) default_config) r = false ->
     Z.of_nat (count_simulate (trace (run_stub scenario_stub 8 default_config)))
     = 8).
Proof.
  apply (stub_run_converges_iff_visited scenario_stub default_config 8). lia.
Defined.

(** ** C6: a zero error *)

(** C6, as stated, fails: the property is stated for every config state, and the
    config accepts an actuator outside the clamp range.  With
    [bust_multiplier = 5.0] and the statistic equal to the target, the error
    is zero, the sum is still 5.0, and the clamp writes 3.0. *)
Lemma adjust_at_target_moves_out_of_range_actuator :
  bust_multiplier (set_bust_multiplier (of_Z 5) default_config) = of_Z 5 /\
  bust_multiplier
    (snd (adjust (init tt (set_bust_multiplier (of_Z 5) default_config))
            (target_edge (set_bust_multiplier (of_Z 5) default_config))
            (set_bust_multiplier (of_Z 5) default_config))) = lit_3_0 /\
  ~ adjust_at_target_is_identity.
Proof.
  repeat split; try reflexivity.
  intros H. specialize (H (set_bust_multiplier (of_Z 5) default_config)).
  vm_compute in H. discriminate H.
Qed.

(** C6, amended: when the actuator already lies within [[0.5, 3.0]] and the
    target the balancer was built with is finite, calling [adjust(m)] with
    [m == target] leaves the actuator, and the whole config, unchanged. *)
Theorem adjust_at_target_keeps_actuator {E : Type} (ec : E)
    (config0 config : Config) (m : float) :
  is_finite (target_edge config0) = true ->
  eqb m (target_edge config0) = true ->
  in_clamp_range (bust_multiplier config) = true ->
  bust_multiplier (snd (adjust (init ec config0) m config))
  = bust_multiplier config /\
  adjust (init ec config0) m config = (tt, config).
Proof.
  intros Ht Heq Hin.
  assert (Hspec : adjust_spec (target_edge config0) lit_0_8 m
                    (bust_multiplier config) = bust_multiplier config).
  { unfold adjust_spec.
    destruct (sub_eqb_zero _ _ Ht Heq) as (s & ->).
    destruct (in_clamp_range_shape _ Hin) as (ma & ea & Ha).
    unfold lit_0_8. rewrite mul_zero_r, Ha, add_zero_r, <- Ha.
    apply clamp_id_in_range. exact Hin. }
  rewrite adjust_eq. cbn [target learning_rate init snd bust_multiplier
                          set_bust_multiplier].
  rewrite Hspec. split; [reflexivity | ].
  destruct config; reflexivity.
Qed.

Lemma adjust_at_target_keeps_actuator_witness :
  bust_multiplier
    (snd (adjust (init tt default_config) lit_0_05 default_config))
  = bust_multiplier default_config /\
  adjust (init tt default_config) lit_0_05 default_config
  = (tt, default_config).
Proof.
  apply (adjust_at_target_keeps_actuator tt default_config default_config
           lit_0_05); reflexivity.
Defined.

(** ** C7: the frame of the balancer *)

(** C7: the balancer writes only the actuator.  After any sequence of
    [adjust] calls, and in every state of the config that a [run] exposes
    (the ones engines are built from, the ones [adjust] leaves, the final
    one), [players], [ante], [rounds], [target_edge] and [tube_initial] are
    what they were before. *)
Theorem balancer_writes_only_actuator :
  (forall (E : Type) (self : AutoBalancer E) (edges : list float)
          (config : Config),
     same_static_inputs config (adjust_seq self edges config)) /\
  (forall (W Result : Type) (house_edge : Result -> float)
          (self : AutoBalancer (EngineClass W Result)) (max_iterations : Z)
          (config : Config) (w : W),
     same_static_inputs config
       (final_config (run house_edge self max_iterations config w)) /\
     Forall (same_static_inputs config)
       (trace_configs (trace (run house_edge self max_iterations config w)))).
Proof.
  split.
  - intros E self edges config. apply adjust_seq_static.
  - intros W Result house_edge self n config w. unfold run.
    apply (run_loop_static house_edge self (Z.to_nat n) 0 None config w).
Qed.

(** ** C8: determinism in the observations *)

(** C8: two runs with the same [max_iterations], from equal config states,
    by balancers built from the same config, against engines that may differ
    in everything but feed the controller the same sequence of measured
    statistics (or faults): the actuator takes the same sequence of values,
    the config ends in the same state, the stop decision is the same and the
    returned statistic is the same; when the two engines also hand back the
    same records, the return values are equal. *)
Theorem controller_deterministic {W1 W2 Result : Type}
    (house_edge : Result -> float)
    (ec1 : EngineClass W1 Result) (ec2 : EngineClass W2 Result)
    (config0 config : Config) (max_iterations : Z) (w1 : W1) (w2 : W2) :
  observations house_edge
    (trace (run house_edge (init ec1 config0) max_iterations config w1)) =
  observations house_edge
    (trace (run house_edge (init ec2 config0) max_iterations config w2)) ->
  actuators (trace (run house_edge (init ec1 config0) max_iterations config w1))
  = actuators (trace (run house_edge (init ec2 config0) max_iterations config w2))
  /\
  final_config (run house_edge (init ec1 config0) max_iterations config w1)
  = final_config (run house_edge (init ec2 config0) max_iterations config w2)
  /\
  stop_decision house_edge (init ec1 config0)
    (run house_edge (init ec1 config0) max_iterations config w1)
  = stop_decision house_edge (init ec2 config0)
      (run house_edge (init ec2 config0) max_iterations config w2)
  /\
  outcome_map house_edge
    (outcome (run house_edge (init ec1 config0) max_iterations config w1))
  = outcome_map house_edge
      (outcome (run house_edge (init ec2 config0) max_iterations config w2))
  /\
  (engine_outcomes
     (trace (run house_edge (init ec1 config0) max_iterations config w1)) =
   engine_outcomes
     (trace (run house_edge (init ec2 config0) max_iterations config w2)) ->
   outcome (run house_edge (init ec1 config0) max_iterations config w1)
   = outcome (run house_edge (init ec2 config0) max_iterations config w2)).
Proof.
  intros Hobs.
  assert (Hsame : same_controller (init ec1 config0) (init ec2 config0))
    by (repeat split; reflexivity).
  unfold run in *.
  destruct (run_loop_deterministic house_edge _ _ Hsame
              (Z.to_nat max_iterations) 0 None None config w1 w2 Hobs eq_refl)
    as (Ha & Hf & Ho & Hout).
  repeat split.
  - exact Ha.
  - exact Hf.
  - apply same_controller_stop; assumption.
  - exact Ho.
  - intros Heo. apply Hout; [exact Heo | reflexivity].
Qed.

Lemma controller_deterministic_witness :
  actuators (trace (run stub_house_edge
                      (init (stub_engine scenario_stub) default_config)
                      8 default_config tt))
  = actuators (trace (run stub_house_edge
                        (init (counting_stub_engine scenario_stub) default_config)
                        8 default_config O)).
Proof.
  refine (proj1 (controller_deterministic stub_house_edge
                   (stub_engine scenario_stub)
                   (counting_stub_engine scenario_stub)
                   default_config default_config 8 tt O _)).
  vm_compute. reflexivity.
Defined.

(** ** C9: no iteration, no result *)

(** C9: [run(0)] returns no record: no engine is built, [simulate()] is not
    called, nothing is printed or adjusted, and the [return result] after the
    loop raises [UnboundLocalError] because [result] was never bound.  The
    same happens for every [max_iterations <= 0]; whenever [run] does return
    a record, [max_iterations >= 1]. *)
Theorem run_zero_raises_unbound {W Result : Type} (house_edge : Result -> float)
    (self : AutoBalancer (EngineClass W Result)) (config : Config) (w : W) :
  run house_edge self 0 config w =
  {| outcome := Raised (UnboundLocalError "result"); final_config := config;
     final_world := w; trace := [] |} /\
  (forall max_iterations : Z,
     max_iterations <= 0 ->
     run house_edge self max_iterations config w =
     {| outcome := Raised (UnboundLocalError "result"); final_config := config;
        final_world := w; trace := [] |}) /\
  (forall (max_iterations : Z) (r : Result),
     outcome (run house_edge self max_iterations config w) = Returned r ->
     1 <= max_iterations).
Proof.
  split; [reflexivity | ]. split.
  - intros n Hn. apply run_nonpositive. exact Hn.
  - intros n r Hr.
    destruct (Z_le_gt_dec n 0) as [Hle | Hgt]; [ | lia].
    rewrite (run_nonpositive house_edge self n config w Hle) in Hr.
    discriminate Hr.
Qed.

Lemma run_zero_raises_unbound_witness :
  run_stub scenario_stub (-2) default_config =
  {| outcome := Raised (UnboundLocalError "result");
     final_config := default_config; final_world := tt; trace := [] |} /\
  1 <= 1.
Proof.
  split.
  - apply (proj1 (proj2 (run_zero_raises_unbound stub_house_edge
                           (init (stub_engine scenario_stub) default_config)
                           default_config tt)) (-2)).
    lia.
  - apply (proj2 (proj2 (run_zero_raises_unbound stub_house_edge
                           (init (stub_engine scenario_stub) default_config)
                           default_config tt)) 1 (literal 2 10)).
    reflexivity.
Defined.

(** ** C10: the target is a snapshot *)

(** C10: the balancer reads [config.target_edge] once, when it is built.
    Whatever the caller later writes to [config.target_edge], [adjust] still
    computes its error from the value read at construction: a write to the
    target commutes with [adjust], and over any interleaving of such writes
    with [adjust] calls the actuator ends where the [adjust] calls alone
    would have put it. *)
Theorem target_is_snapshot {E : Type} (ec : E) (config0 : Config) :
  target (init ec config0) = target_edge config0 /\
  (forall (t m : float) (config : Config),
     bust_multiplier
       (snd (adjust (init ec config0) m (set_target_edge t config)))
     = clamp lit_0_5 lit_3_0
         (add (bust_multiplier config)
              (mul lit_0_8 (sub (target_edge config0) m))) /\
     adjust (init ec config0) m (set_target_edge t config)
     = (tt, set_target_edge t (snd (adjust (init ec config0) m config)))) /\
  (forall (ops : list CallerOp) (config : Config),
     bust_multiplier (caller_play (init ec config0) ops config)
     = bust_multiplier
         (adjust_seq (init ec config0) (adjust_edges ops) config)).
Proof.
  split; [reflexivity | ]. split.
  - intros t m config. split.
    + rewrite adjust_bust_multiplier. reflexivity.
    + apply adjust_commutes_with_set_target.
  - intros ops config.
    rewrite caller_play_bust_multiplier, adjust_seq_bust_multiplier.
    reflexivity.
Qed.

(* ================================================================== *)
(** * Part VII: further properties of the code *)
(* ================================================================== *)

(** ** [adjust] on values that are not numbers *)

Lemma add_nan_l (y : float) : add nan y = nan.
Proof. reflexivity. Qed.

Lemma add_nan_r (x : float) : add x nan = nan.
Proof. destruct x; reflexivity. Qed.

Lemma mul_nan_r (x : float) : mul x nan = nan.
Proof. destruct x; reflexivity. Qed.

Lemma sub_nan_l (y : float) : sub nan y = nan.
Proof. reflexivity. Qed.

Lemma sub_nan_r (x : float) : sub x nan = nan.
Proof. destruct x; reflexivity. Qed.

Lemma is_nan_eq (x : float) : is_nan x = true -> x = nan.
Proof. destruct x; simpl; intros H; try discriminate H. reflexivity. Qed.

Lemma adjust_spec_nan (t lr m a : float) :
  is_nan m = true \/ is_nan t = true \/ is_nan a = true ->
  adjust_spec t lr m a = nan.
Proof.
  unfold adjust_spec.
  intros [H | [H | H]]; apply is_nan_eq in H; subst.
  - rewrite sub_nan_r, mul_nan_r, add_nan_r. reflexivity.
  - rewrite sub_nan_l, mul_nan_r, add_nan_r. reflexivity.
  - rewrite add_nan_l. reflexivity.
Qed.

Lemma adjust_seq_nan {E : Type} (self : AutoBalancer E) (edges : list float) :
  forall config,
    bust_multiplier config = nan ->
    bust_multiplier (adjust_seq self edges config) = nan.
Proof.
  unfold adjust_seq.
  induction edges as [ | e edges IH]; intros config Ha; cbn [fold_left].
  - exact Ha.
  - apply IH. rewrite adjust_bust_multiplier, Ha.
    apply adjust_spec_nan. right. right. reflexivity.
Qed.

(** X1.  NaN is absorbing: if the measured statistic, the balancer's target
    or the actuator is NaN when [adjust] is called, the actuator is NaN when
    the call returns, and it is still NaN after any further [adjust] calls,
    whatever statistics they are given. *)
Theorem adjust_nan_is_absorbing {E : Type} (self : AutoBalancer E)
    (m : float) (later : list float) (config : Config) :
  is_nan m = true \/ is_nan (target self) = true \/
  is_nan (bust_multiplier config) = true ->
  bust_multiplier (snd (adjust self m config)) = nan /\
  bust_multiplier (adjust_seq self (m :: later) config) = nan.
Proof.
  intros H.
  assert (H1 : bust_multiplier (snd (adjust self m config)) = nan)
    by (rewrite adjust_bust_multiplier; apply adjust_spec_nan; exact H).
  split; [exact H1 | ].
  change (adjust_seq self (m :: later) config)
    with (adjust_seq self later (snd (adjust self m config))).
  apply adjust_seq_nan. exact H1.
Qed.

Lemma adjust_nan_is_absorbing_witness :
  bust_multiplier (snd (adjust (init tt default_config) nan default_config))
  = nan /\
  bust_multiplier
    (adjust_seq (init tt default_config) [nan; lit_0_05; literal 2 10]
       default_config) = nan.
Proof.
  apply (adjust_nan_is_absorbing (init tt default_config) nan
           [lit_0_05; literal 2 10] default_config).
  left. reflexivity.
Defined.

(** X2.  Whatever it is given, [adjust] leaves the actuator either NaN or
    within [[0.5, 3.0]], never a number outside the range; it is within the
    range exactly when the sum computed before clamping is not NaN. *)
Theorem adjust_leaves_nan_or_in_range {E : Type} (self : AutoBalancer E)
    (m : float) (config : Config) :
  in_clamp_range (bust_multiplier (snd (adjust self m config))) =
  negb (is_nan (add (bust_multiplier config)
                    (mul (learning_rate self) (sub (target self) m)))) /\
  (bust_multiplier (snd (adjust self m config)) = nan \/
   in_clamp_range (bust_multiplier (snd (adjust self m config))) = true).
Proof.
  rewrite adjust_bust_multiplier. unfold adjust_spec.
  destruct (is_nan (add (bust_multiplier config)
                        (mul (learning_rate self) (sub (target self) m))))
    eqn:Hn.
  - apply is_nan_eq in Hn. rewrite Hn. split; [reflexivity | left; reflexivity].
  - rewrite (clamp_in_range _ Hn). split; [reflexivity | right; reflexivity].
Qed.

(** X3.  An infinite statistic saturates the actuator: with a finite target
    and a finite actuator, [adjust(+inf)] writes the lower bound 0.5 and
    [adjust(-inf)] the upper bound 3.0. *)
Theorem adjust_infinite_statistic_saturates {E : Type} (ec : E)
    (config0 config : Config) :
  is_finite (target_edge config0) = true ->
  is_finite (bust_multiplier config) = true ->
  bust_multiplier
    (snd (adjust (init ec config0) (S754_infinity false) config)) = lit_0_5 /\
  bust_multiplier
    (snd (adjust (init ec config0) (S754_infinity true) config)) = lit_3_0.
Proof.
  intros Ht Ha. rewrite !adjust_bust_multiplier. unfold adjust_spec.
  cbn [target learning_rate init].
  destruct (target_edge config0) as [st | st | | st mt et]; try discriminate Ht;
    destruct (bust_multiplier config) as [sa | sa | | sa ma ea];
    try discriminate Ha; split; reflexivity.
Qed.

Lemma adjust_infinite_statistic_saturates_witness :
  bust_multiplier
    (snd (adjust (init tt default_config) (S754_infinity false) default_config))
  = lit_0_5 /\
  bust_multiplier
    (snd (adjust (init tt default_config) (S754_infinity true) default_config))
  = lit_3_0.
Proof.
  apply (adjust_infinite_statistic_saturates tt default_config default_config);
    reflexivity.
Defined.

(** ** The loop, for every engine *)

Lemma last_cons_default {A : Type} (l : list A) (a d : A) :
  last (a :: l) d = last l a.
Proof.
  revert a d. induction l as [ | b l IH]; intros a d; [reflexivity | ].
  change (last (a :: b :: l) d) with (last (b :: l) d).
  rewrite (IH b d), (IH b a). reflexivity.
Qed.

Lemma after_events_nil {W Result : Type} (R : RunEnd W Result) :
  after_events [] R = R.
Proof. destruct R; reflexivity. Qed.

Lemma after_events_app {W Result : Type} (l1 l2 : list (Event Result))
    (R : RunEnd W Result) :
  after_events l1 (after_events l2 R) = after_events (l1 ++ l2) R.
Proof. unfold after_events. cbn [outcome final_config final_world trace].
  rewrite app_assoc. reflexivity.
Qed.

Lemma actuators_app {Result : Type} (l1 l2 : list (Event Result)) :
  actuators (l1 ++ l2) = actuators l1 ++ actuators l2.
Proof.
  induction l1 as [ | ev l1 IH]; [reflexivity | ].
  destruct ev; cbn [app actuators]; rewrite IH; reflexivity.
Qed.

Lemma engine_outcomes_app {Result : Type} (l1 l2 : list (Event Result)) :
  engine_outcomes (l1 ++ l2) = engine_outcomes l1 ++ engine_outcomes l2.
Proof.
  induction l1 as [ | ev l1 IH]; [reflexivity | ].
  destruct ev; cbn [app engine_outcomes]; rewrite IH; reflexivity.
Qed.

(** A value the band test accepts is a positive finite number. *)
Lemma in_band_shape {E : Type} (ec : E) (config0 : Config) (x : float) :
  in_band (init ec config0) x = true -> exists m e, x = S754_finite false m e.
Proof.
  unfold in_band. cbn [min_edge max_edge init].
  intros H. apply andb_prop in H. destruct H as [Hlo Hhi].
  destruct x as [s | s | | s m e].
  - discriminate Hlo.
  - destruct s; [discriminate Hlo | discriminate Hhi].
  - discriminate Hlo.
  - destruct s; [discriminate Hlo | eauto].
Qed.

Section RunMore.

Context {W Result : Type}.
Variable house_edge : Result -> float.
Variable self : AutoBalancer (EngineClass W Result).

Lemma run_loop_budget :
  forall (k : nat) (i : Z) (res : option Result) (config : Config) (w : W),
    let R := run_loop house_edge self k i res config w in
    (count_simulate (trace R) <= k)%nat /\
    (count_adjust (trace R) <= count_simulate (trace R))%nat.
Proof.
  induction k as [ | k IH]; intros i res config w R; subst R.
  - simpl. lia.
  - destruct (run_loop_shape house_edge self k i res config w)
      as [e w1 ev _ Hev HR | r w1 _ _ HR | r w1 _ _ HR]; rewrite HR; clear HR.
    + destruct Hev as [-> | ->]; simpl; lia.
    + simpl. lia.
    + specialize (IH (i + 1) (Some r)
                     (snd (adjust self (house_edge r) config)) w1).
      cbv zeta in IH.
      cbn [after_events trace app count_simulate count_adjust]. lia.
Qed.

Lemma run_loop_returned :
  forall (k : nat) (i : Z) (res : option Result) (config : Config) (w : W)
         (r : Result),
    let R := run_loop house_edge self k i res config w in
    outcome R = Returned r ->
    (k = O /\ res = Some r) \/
    (last_result (trace R) = Some r /\
     ((in_band self (house_edge r) = true /\
       S (count_adjust (trace R)) = count_simulate (trace R)) \/
      (in_band self (house_edge r) = false /\
       count_simulate (trace R) = k /\ count_adjust (trace R) = k))).
Proof.
  induction k as [ | k IH]; intros i res config w r R; subst R.
  - simpl. destruct res as [r0 | ]; intros H; [ | discriminate H].
    injection H as ->. left. split; reflexivity.
  - destruct (run_loop_shape house_edge self k i res config w)
      as [e w1 ev _ Hev HR | r0 w1 _ Hb HR | r0 w1 _ Hb HR]; rewrite HR;
      clear HR.
    + cbn [outcome]. intros H. discriminate H.
    + cbn [outcome trace last_result count_adjust count_simulate].
      intros H. injection H as <-. right. split; [reflexivity | ].
      left. split; [exact Hb | reflexivity].
    + cbn [after_events outcome trace app last_result count_adjust
             count_simulate].
      intros H. right.
      destruct (IH (i + 1) (Some r0)
                  (snd (adjust self (house_edge r0) config)) w1 r H)
        as [[Hk Hres] | [Hl Hcase]].
      * injection Hres as ->. subst k. cbn [run_loop trace last_result
                                              count_simulate count_adjust].
        split; [reflexivity | ]. right. repeat split; assumption.
      * rewrite Hl. split; [reflexivity | ].
        destruct Hcase as [[Hin Hc] | [Hout [Hs Ha]]].
        -- left. split; [exact Hin | ]. rewrite Hc. reflexivity.
        -- right. rewrite Hs, Ha. repeat split; assumption.
Qed.

Lemma run_loop_fault :
  forall (k : nat) (i : Z) (res : option Result) (config : Config) (w : W)
         (e : PyExn),
    let R := run_loop house_edge self k i res config w in
    In (Raised e) (engine_outcomes (trace R)) ->
    outcome R = Raised e /\
    exists l : list (Outcome Result),
      engine_outcomes (trace R) = l ++ [Raised e] /\ Forall is_returned l.
Proof.
  induction k as [ | k IH]; intros i res config w e R; subst R.
  - simpl. intros [].
  - destruct (run_loop_shape house_edge self k i res config w)
      as [e0 w1 ev _ Hev HR | r0 w1 _ Hb HR | r0 w1 _ Hb HR]; rewrite HR;
      clear HR.
    + assert (Ho : engine_outcomes [ev] = [@Raised Result e0])
        by (destruct Hev as [-> | ->]; reflexivity).
      cbn [outcome trace]. rewrite Ho.
      intros [H | []]. injection H as ->.
      split; [reflexivity | ]. exists []. split; [reflexivity | constructor].
    + cbn [trace engine_outcomes]. intros [H | []]. discriminate H.
    + cbn [after_events outcome trace app engine_outcomes].
      intros [H | H]; [discriminate H | ].
      destruct (IH (i + 1) (Some r0)
                  (snd (adjust self (house_edge r0) config)) w1 e H)
        as (Ho & l & Hl & Hall).
      split; [exact Ho | ]. exists (Returned r0 :: l). split.
      * rewrite Hl. reflexivity.
      * constructor; [exists r0; reflexivity | exact Hall].
Qed.

Lemma run_loop_raised :
  forall (k : nat) (i : Z) (res : option Result) (config : Config) (w : W)
         (e : PyExn),
    let R := run_loop house_edge self k i res config w in
    outcome R = Raised e ->
    (k = O /\ res = None /\ e = UnboundLocalError "result") \/
    In (Raised e) (engine_outcomes (trace R)).
Proof.
  induction k as [ | k IH]; intros i res config w e R; subst R.
  - simpl. destruct res; intros H; [discriminate H | ].
    injection H as <-. left. repeat split.
  - intros H. right. revert H.
    destruct (run_loop_shape house_edge self k i res config w)
      as [e0 w1 ev _ Hev HR | r0 w1 _ Hb HR | r0 w1 _ Hb HR]; rewrite HR;
      clear HR.
    + cbn [outcome trace]. intros H. injection H as ->.
      destruct Hev as [-> | ->]; left; reflexivity.
    + cbn [outcome]. intros H. discriminate H.
    + cbn [after_events outcome trace app engine_outcomes]. intros H. right.
      destruct (IH (i + 1) (Some r0)
                  (snd (adjust self (house_edge r0) config)) w1 e H)
        as [(_ & Hres & _) | Hin]; [discriminate Hres | exact Hin].
Qed.

Lemma run_loop_visited :
  forall (k : nat) (i : Z) (res : option Result) (config : Config) (w : W),
    let R := run_loop house_edge self k i res config w in
    visited (trace R) =
      firstn (List.length (visited (trace R)))
        (bust_multiplier config :: actuators (trace R)) /\
    bust_multiplier (final_config R) =
      last (actuators (trace R)) (bust_multiplier config).
Proof.
  induction k as [ | k IH]; intros i res config w R; subst R.
  - simpl. split; reflexivity.
  - destruct (run_loop_shape house_edge self k i res config w)
      as [e0 w1 ev _ Hev HR | r0 w1 _ Hb HR | r0 w1 _ Hb HR]; rewrite HR;
      clear HR.
    + destruct Hev as [-> | ->]; simpl; split; reflexivity.
    + simpl. split; reflexivity.
    + destruct (IH (i + 1) (Some r0)
                  (snd (adjust self (house_edge r0) config)) w1) as [Hv Hf].
      cbn [after_events final_config trace app visited actuators List.length
             firstn].
      split.
      * rewrite <- Hv. reflexivity.
      * rewrite Hf, last_cons_default. reflexivity.
Qed.

Lemma run_loop_final_config :
  forall (k : nat) (i : Z) (res : option Result) (config : Config) (w : W),
    let R := run_loop house_edge self k i res config w in
    final_config R =
    adjust_seq self
      (filter (fun x => negb (in_band self x))
         (returned_statistics house_edge (trace R)))
      config.
Proof.
  induction k as [ | k IH]; intros i res config w R; subst R.
  - reflexivity.
  - destruct (run_loop_shape house_edge self k i res config w)
      as [e0 w1 ev _ Hev HR | r0 w1 _ Hb HR | r0 w1 _ Hb HR]; rewrite HR;
      clear HR.
    + destruct Hev as [-> | ->]; reflexivity.
    + cbn [final_config trace returned_statistics filter]. rewrite Hb.
      reflexivity.
    + cbn [after_events final_config trace app returned_statistics filter].
      rewrite Hb. cbn [negb].
      rewrite (IH (i + 1) (Some r0)
                 (snd (adjust self (house_edge r0) config)) w1).
      reflexivity.
Qed.

End RunMore.

Section RunResume.

Context {W Result : Type}.
Variable house_edge : Result -> float.
Variable self : AutoBalancer (EngineClass W Result).

(** Apart from the printed indices, an iteration does not depend on its
    index, nor on what [result] was bound to before it. *)
Lemma run_loop_index_irrelevant :
  forall (k : nat) (i i' : Z) (res res' : option Result) (config : Config)
         (w : W),
    k <> O \/ res = res' ->
    let R := run_loop house_edge self k i res config w in
    let R' := run_loop house_edge self k i' res' config w in
    outcome R = outcome R' /\ final_config R = final_config R' /\
    final_world R = final_world R' /\
    actuators (trace R) = actuators (trace R') /\
    engine_outcomes (trace R) = engine_outcomes (trace R').
Proof.
  induction k as [ | k IH]; intros i i' res res' config w Hk R R';
    subst R R'.
  - destruct Hk as [Hk | ->]; [congruence | ]. repeat split.
  - destruct (run_loop_shape house_edge self k i res config w)
      as [e w1 ev Hcall Hev HR | r w1 Hcall Hb HR | r w1 Hcall Hb HR].
    + rewrite HR.
      destruct (run_loop_shape house_edge self k i' res' config w)
        as [e2 w2 ev2 Hcall2 Hev2 HR2 | r2 w2 Hcall2 _ _ | r2 w2 Hcall2 _ _];
        rewrite Hcall in Hcall2; try discriminate Hcall2.
      injection Hcall2 as <- <-. rewrite HR2.
      destruct Hev as [-> | ->], Hev2 as [-> | ->]; repeat split.
    + rewrite HR, (run_loop_in_band house_edge self k i' res' config w r w1
                     Hcall Hb).
      repeat split.
    + rewrite HR, (run_loop_out_of_band house_edge self k i' res' config w r w1
                     Hcall Hb).
      destruct (IH (i + 1) (i' + 1) (Some r) (Some r)
                  (snd (adjust self (house_edge r) config)) w1
                  (or_intror eq_refl))
        as (Ho & Hf & Hw & Ha & He).
      cbn [after_events outcome final_config final_world trace app actuators
             engine_outcomes].
      rewrite Ho, Hf, Hw, Ha, He. repeat split.
Qed.

(** A loop whose first [k1] iterations all adjusted goes on as a loop of its
    own from the state they left. *)
Lemma run_loop_resume :
  forall (k1 k2 : nat) (i : Z) (res : option Result) (config : Config) (w : W),
    let R1 := run_loop house_edge self k1 i res config w in
    count_adjust (trace R1) = k1 ->
    run_loop house_edge self (k1 + k2) i res config w =
    after_events (trace R1)
      (run_loop house_edge self k2 (i + Z.of_nat k1)
         (match last_result (trace R1) with
          | Some r => Some r
          | None => res
          end)
         (final_config R1) (final_world R1)).
Proof.
  induction k1 as [ | k1 IH]; intros k2 i res config w R1; subst R1.
  - intros _. cbn [run_loop trace last_result final_config final_world plus].
    rewrite after_events_nil. replace (i + Z.of_nat 0) with i by lia.
    reflexivity.
  - destruct (run_loop_shape house_edge self k1 i res config w)
      as [e w1 ev Hcall Hev HR | r w1 Hcall Hb HR | r w1 Hcall Hb HR];
      rewrite HR.
    + destruct Hev as [-> | ->]; cbn [trace count_adjust]; intros H;
        discriminate H.
    + cbn [trace count_adjust]. intros H. discriminate H.
    + cbn [after_events trace app count_adjust last_result final_config
             final_world].
      intros Hc. injection Hc as Hc.
      change (S k1 + k2)%nat with (S (k1 + k2)).
      rewrite (run_loop_out_of_band house_edge self (k1 + k2) i res config w r
                 w1 Hcall Hb).
      rewrite (IH k2 (i + 1) (Some r)
                 (snd (adjust self (house_edge r) config)) w1 Hc).
      rewrite after_events_app.
      replace (i + 1 + Z.of_nat k1) with (i + Z.of_nat (S k1)) by lia.
      destruct (last_result
                  (trace (run_loop house_edge self k1 (i + 1) (Some r)
                            (snd (adjust self (house_edge r) config)) w1)));
        reflexivity.
Qed.

(** The lines the loop prints. *)
Lemma run_loop_prints :
  forall (k : nat) (i : Z) (res : option Result) (config : Config) (w : W),
    let R := run_loop house_edge self k i res config w in
    printed_indices (trace R) =
      map (fun j => i + j)
        (py_range (List.length (returned_statistics house_edge (trace R)))) /\
    (k <> O \/ res = None ->
     count_stabilized (trace R) =
       match stop_decision house_edge self R with
       | Converged => 1%nat
       | _ => O
       end).
Proof.
  unfold py_range.
  induction k as [ | k IH]; intros i res config w; cbv zeta.
  - split; [reflexivity | ].
    intros [Hk | ->]; [congruence | reflexivity].
  - destruct (run_loop_shape house_edge self k i res config w)
      as [e w1 ev _ Hev HR | r w1 _ Hb HR | r w1 _ Hb HR]; rewrite HR;
      clear HR.
    + destruct Hev as [-> | ->]; split; try reflexivity; intros _; reflexivity.
    + cbn [trace printed_indices returned_statistics List.length seq map].
      split; [f_equal; lia | ].
      intros _. unfold stop_decision. cbn [outcome]. rewrite Hb. reflexivity.
    + destruct (IH (i + 1) (Some r)
                  (snd (adjust self (house_edge r) config)) w1) as [Hp Hs].
      cbn [after_events trace app printed_indices returned_statistics
             List.length seq map count_stabilized].
      split.
      * rewrite Hp, <- seq_shift, !map_map. f_equal; [lia | ].
        apply map_ext. intros j. lia.
      * intros _. unfold stop_decision in Hs |- *.
        cbn [after_events outcome].
        destruct k as [ | k'].
        -- cbn [run_loop trace outcome count_stabilized]. rewrite Hb.
           reflexivity.
        -- apply Hs. left. discriminate.
Qed.

End RunResume.

(** Every actuator value written during a run is within the clamp range,
    when the target and the starting actuator are finite and so are the
    statistics that came back. *)
Lemma run_loop_in_range {W Result : Type} (house_edge : Result -> float)
    (ec : EngineClass W Result) (config0 : Config) :
  is_finite (target_edge config0) = true ->
  forall (k : nat) (i : Z) (res : option Result) (config : Config) (w : W),
    let R := run_loop house_edge (init ec config0) k i res config w in
    is_finite (bust_multiplier config) = true ->
    Forall (fun x => is_finite x = true)
      (returned_statistics house_edge (trace R)) ->
    Forall (fun a => in_clamp_range a = true) (actuators (trace R)).
Proof.
  intros Ht.
  induction k as [ | k IH]; intros i res config w R; subst R.
  - intros _ _. constructor.
  - destruct (run_loop_shape house_edge (init ec config0) k i res config w)
      as [e w1 ev _ Hev HR | r w1 _ Hb HR | r w1 _ Hb HR]; rewrite HR;
      clear HR.
    + intros _ _. destruct Hev as [-> | ->]; constructor.
    + intros _ _. constructor.
    + cbn [after_events trace app returned_statistics actuators].
      intros Ha Hall. inversion Hall as [ | x l Hx Hl]; subst.
      pose proof (adjust_step_in_range ec config0 config (house_edge r) Ht Hx Ha)
        as Hin.
      constructor; [exact Hin | ].
      apply IH; [apply in_clamp_range_finite; exact Hin | exact Hl].
Qed.

Lemma Forall_last {A : Type} (P : A -> Prop) (l : list A) (d : A) :
  Forall P l -> l <> [] -> P (last l d).
Proof.
  induction 1 as [ | a l Ha Hall IH]; intros Hne; [congruence | ].
  destruct l as [ | b l]; [exact Ha | ].
  change (last (a :: b :: l) d) with (last (b :: l) d).
  apply IH. discriminate.
Qed.

(** ** What [run] does, for every engine *)

(** X4.  The budget: whatever the engine does, [run(max_iterations)] calls
    [simulate()] at most [max_iterations] times (not at all when
    [max_iterations <= 0]), and never calls [adjust] more often than
    [simulate()]. *)
Theorem run_call_budget {W Result : Type} (house_edge : Result -> float)
    (self : AutoBalancer (EngineClass W Result)) (max_iterations : Z)
    (config : Config) (w : W) :
  Z.of_nat (count_simulate (trace (run house_edge self max_iterations config w)))
  <= Z.max 0 max_iterations /\
  (count_adjust (trace (run house_edge self max_iterations config w)) <=
   count_simulate (trace (run house_edge self max_iterations config w)))%nat.
Proof.
  unfold run.
  destruct (run_loop_budget house_edge self (Z.to_nat max_iterations) 0 None
              config w) as [Hs Ha].
  split; [lia | exact Ha].
Qed.

(** X5.  Whenever [run] returns a record, it is the record of the last
    [simulate()] call, and one of two things happened: its statistic is in
    the band and [adjust] was called once less than [simulate()]
    (convergence), or its statistic is outside the band and both were called
    exactly [max_iterations] times (exhaustion). *)
Theorem run_returns_last_record {W Result : Type} (house_edge : Result -> float)
    (self : AutoBalancer (EngineClass W Result)) (max_iterations : Z)
    (config : Config) (w : W) (r : Result) :
  outcome (run house_edge self max_iterations config w) = Returned r ->
  last_result (trace (run house_edge self max_iterations config w)) = Some r /\
  ((in_band self (house_edge r) = true /\
    S (count_adjust (trace (run house_edge self max_iterations config w))) =
    count_simulate (trace (run house_edge self max_iterations config w))) \/
   (in_band self (house_edge r) = false /\
    Z.of_nat (count_simulate (trace (run house_edge self max_iterations config w)))
    = max_iterations /\
    Z.of_nat (count_adjust (trace (run house_edge self max_iterations config w)))
    = max_iterations)).
Proof.
  unfold run. intros H.
  destruct (run_loop_returned house_edge self (Z.to_nat max_iterations) 0 None
              config w r H) as [[_ Hres] | [Hl Hcase]]; [discriminate Hres | ].
  split; [exact Hl | ].
  destruct Hcase as [Hc | (Hout & Hs & Ha)]; [left; exact Hc | right].
  assert (Hpos : Z.to_nat max_iterations <> O).
  { intros Hz. rewrite Hz in Hl. discriminate Hl. }
  rewrite Hs, Ha. repeat split; try assumption; lia.
Qed.

Lemma run_returns_last_record_witness :
  last_result (trace (run_stub scenario_stub 8 default_config))
  = Some (literal 4 10) /\
  ((in_band (init (stub_engine scenario_stub) default_config)
      (stub_house_edge (literal 4 10)) = true /\
    S (count_adjust (trace (run_stub scenario_stub 8 default_config))) =
    count_simulate (trace (run_stub scenario_stub 8 default_config))) \/
   (in_band (init (stub_engine scenario_stub) default_config)
      (stub_house_edge (literal 4 10)) = false /\
    Z.of_nat (count_simulate (trace (run_stub scenario_stub 8 default_config)))
    = 8 /\
    Z.of_nat (count_adjust (trace (run_stub scenario_stub 8 default_config)))
    = 8)).
Proof.
  apply (run_returns_last_record stub_house_edge
           (init (stub_engine scenario_stub) default_config) 8 default_config
           tt (literal 4 10)).
  vm_compute. reflexivity.
Defined.

(** X6.  Engine faults propagate and nothing is retried: if building an
    engine or a [simulate()] call raises, that call is the last engine call
    of the run, every call before it returned, and [run] raises the same
    exception.  Conversely, when [run] raises, either some engine call raised
    that exception or no iteration ran and it is the [UnboundLocalError] of
    the final [return]. *)
Theorem run_fault_propagates {W Result : Type} (house_edge : Result -> float)
    (self : AutoBalancer (EngineClass W Result)) (max_iterations : Z)
    (config : Config) (w : W) (e : PyExn) :
  (In (Raised e)
      (engine_outcomes (trace (run house_edge self max_iterations config w))) ->
   outcome (run house_edge self max_iterations config w) = Raised e /\
   exists l : list (Outcome Result),
     engine_outcomes (trace (run house_edge self max_iterations config w))
     = l ++ [Raised e] /\ Forall is_returned l) /\
  (outcome (run house_edge self max_iterations config w) = Raised e ->
   (max_iterations <= 0 /\ e = UnboundLocalError "result") \/
   In (Raised e)
      (engine_outcomes (trace (run house_edge self max_iterations config w)))).
Proof.
  unfold run. split.
  - apply run_loop_fault.
  - intros H.
    destruct (run_loop_raised house_edge self (Z.to_nat max_iterations) 0 None
                config w e H) as [(Hk & _ & He) | Hin].
    + left. split; [lia | exact He].
    + right. exact Hin.
Qed.

Lemma run_fault_propagates_witness :
  outcome (run stub_house_edge
             (init (faulty_stub_engine scenario_stub 2) default_config) 8
             default_config O)
  = Raised (EngineFault "simulate failed") /\
  exists l : list (Outcome float),
    engine_outcomes
      (trace (run stub_house_edge
                (init (faulty_stub_engine scenario_stub 2) default_config) 8
                default_config O))
    = l ++ [Raised (EngineFault "simulate failed")] /\
    Forall is_returned l.
Proof.
  apply (proj1 (run_fault_propagates stub_house_edge
                  (init (faulty_stub_engine scenario_stub 2) default_config) 8
                  default_config O (EngineFault "simulate failed"))).
  vm_compute. right. right. left. reflexivity.
Defined.

(** X7.  With a finite target, a finite starting actuator and finite
    statistics coming back from the engine, every value [run] writes to the
    actuator lies within [[0.5, 3.0]], and so does the actuator the run
    leaves behind if it adjusted at all. *)
Theorem run_keeps_actuator_in_range {W Result : Type}
    (house_edge : Result -> float) (ec : EngineClass W Result)
    (config0 config : Config) (max_iterations : Z) (w : W) :
  is_finite (target_edge config0) = true ->
  is_finite (bust_multiplier config) = true ->
  Forall (fun x => is_finite x = true)
    (returned_statistics house_edge
       (trace (run house_edge (init ec config0) max_iterations config w))) ->
  Forall (fun a => in_clamp_range a = true)
    (actuators
       (trace (run house_edge (init ec config0) max_iterations config w))) /\
  (actuators
     (trace (run house_edge (init ec config0) max_iterations config w)) <> [] ->
   in_clamp_range
     (bust_multiplier
        (final_config (run house_edge (init ec config0) max_iterations config w)))
   = true).
Proof.
  unfold run. intros Ht Ha Hall.
  pose proof (run_loop_in_range house_edge ec config0 Ht
                (Z.to_nat max_iterations) 0 None config w Ha Hall) as Hin.
  split; [exact Hin | ].
  intros Hne.
  destruct (run_loop_visited house_edge (init ec config0)
              (Z.to_nat max_iterations) 0 None config w) as [_ Hf].
  rewrite Hf.
  exact (Forall_last (fun a => in_clamp_range a = true) _ _ Hin Hne).
Qed.

Lemma run_keeps_actuator_in_range_witness :
  Forall (fun a => in_clamp_range a = true)
    (actuators (trace (run_stub scenario_stub 8 default_config))) /\
  (actuators (trace (run_stub scenario_stub 8 default_config)) <> [] ->
   in_clamp_range
     (bust_multiplier (final_config (run_stub scenario_stub 8 default_config)))
   = true).
Proof.
  apply (run_keeps_actuator_in_range stub_house_edge
           (stub_engine scenario_stub) default_config default_config 8 tt).
  - reflexivity.
  - reflexivity.
  - vm_compute. repeat constructor.
Defined.

(** X8.  Convergence is only ever reported on a positive finite statistic:
    when [run] stops because the statistic is in the band, the returned
    statistic is neither NaN, nor infinite, nor zero, nor negative. *)
Theorem run_converges_on_positive_finite {W Result : Type}
    (house_edge : Result -> float) (ec : EngineClass W Result)
    (config0 config : Config) (max_iterations : Z) (w : W) :
  stop_decision house_edge (init ec config0)
    (run house_edge (init ec config0) max_iterations config w) = Converged ->
  exists (r : Result) (m : positive) (e : Z),
    outcome (run house_edge (init ec config0) max_iterations config w)
    = Returned r /\
    house_edge r = S754_finite false m e.
Proof.
  unfold stop_decision.
  destruct (outcome (run house_edge (init ec config0) max_iterations config w))
    as [r | e]; [ | discriminate].
  destruct (in_band (init ec config0) (house_edge r)) eqn:Hb; [ | discriminate].
  intros _. destruct (in_band_shape ec config0 _ Hb) as (m & e & Hx).
  exists r, m, e. split; [reflexivity | exact Hx].
Qed.

Lemma run_converges_on_positive_finite_witness :
  exists (r : float) (m : positive) (e : Z),
    outcome (run_stub (fun _ => lit_0_05) 8 default_config) = Returned r /\
    stub_house_edge r = S754_finite false m e.
Proof.
  apply (run_converges_on_positive_finite stub_house_edge
           (stub_engine (fun _ => lit_0_05)) default_config default_config 8
           tt).
  vm_compute. reflexivity.
Defined.

(** X9.  Every engine is built from the config as the previous iteration
    left it: the first simulation runs at the starting actuator and each
    later one at the value the preceding [adjust] wrote; the actuator left in
    the config is the last value written (the starting one if [adjust] was
    never called). *)
Theorem run_simulates_current_actuator {W Result : Type}
    (house_edge : Result -> float)
    (self : AutoBalancer (EngineClass W Result)) (max_iterations : Z)
    (config : Config) (w : W) :
  visited (trace (run house_edge self max_iterations config w)) =
    firstn
      (List.length (visited (trace (run house_edge self max_iterations config w))))
      (bust_multiplier config
         :: actuators (trace (run house_edge self max_iterations config w))) /\
  bust_multiplier (final_config (run house_edge self max_iterations config w)) =
    last (actuators (trace (run house_edge self max_iterations config w)))
      (bust_multiplier config).
Proof.
  unfold run.
  apply (run_loop_visited house_edge self (Z.to_nat max_iterations) 0 None
           config w).
Qed.

(** X10.  [run] composes [adjust]: the config it leaves is the starting
    config after one [adjust] call for each returned statistic that was
    outside the band, in order; faults and the converging iteration
    contribute nothing, and nothing is rolled back. *)
Theorem run_final_config_is_adjust_seq {W Result : Type}
    (house_edge : Result -> float)
    (self : AutoBalancer (EngineClass W Result)) (max_iterations : Z)
    (config : Config) (w : W) :
  final_config (run house_edge self max_iterations config w) =
  adjust_seq self
    (filter (fun x => negb (in_band self x))
       (returned_statistics house_edge
          (trace (run house_edge self max_iterations config w))))
    config.
Proof.
  unfold run.
  apply (run_loop_final_config house_edge self (Z.to_nat max_iterations) 0 None
           config w).
Qed.

(** X11.  A run that used up its budget can be resumed: if every one of the
    [n] iterations of [run(n)] adjusted (no convergence, no fault), then
    calling [run(m)], [m >= 1], on the same balancer, config and engine world
    ends exactly as a single [run(n + m)] would have: same return value or
    exception, same final config and world, and the engine calls and actuator
    writes of the long run are those of the two short ones in sequence. *)
Theorem run_resumes {W Result : Type} (house_edge : Result -> float)
    (self : AutoBalancer (EngineClass W Result)) (n m : Z)
    (config : Config) (w : W) :
  0 <= n -> 1 <= m ->
  count_adjust (trace (run house_edge self n config w)) = Z.to_nat n ->
  outcome (run house_edge self (n + m) config w) =
    outcome (run house_edge self m
               (final_config (run house_edge self n config w))
               (final_world (run house_edge self n config w))) /\
  final_config (run house_edge self (n + m) config w) =
    final_config (run house_edge self m
                    (final_config (run house_edge self n config w))
                    (final_world (run house_edge self n config w))) /\
  final_world (run house_edge self (n + m) config w) =
    final_world (run house_edge self m
                   (final_config (run house_edge self n config w))
                   (final_world (run house_edge self n config w))) /\
  actuators (trace (run house_edge self (n + m) config w)) =
    actuators (trace (run house_edge self n config w)) ++
    actuators (trace (run house_edge self m
                        (final_config (run house_edge self n config w))
                        (final_world (run house_edge self n config w)))) /\
  engine_outcomes (trace (run house_edge self (n + m) config w)) =
    engine_outcomes (trace (run house_edge self n config w)) ++
    engine_outcomes (trace (run house_edge self m
                              (final_config (run house_edge self n config w))
                              (final_world (run house_edge self n config w)))).
Proof.
  unfold run. intros Hn Hm Hc.
  rewrite (Z2Nat.inj_add n m) by lia.
  rewrite (run_loop_resume house_edge self (Z.to_nat n) (Z.to_nat m) 0 None
             config w Hc).
  set (R1 := run_loop house_edge self (Z.to_nat n) 0 None config w).
  destruct (run_loop_index_irrelevant house_edge self (Z.to_nat m)
              (0 + Z.of_nat (Z.to_nat n)) 0
              (match last_result (trace R1) with
               | Some r => Some r
               | None => None
               end) None (final_config R1) (final_world R1))
    as (Ho & Hf & Hw & Ha & He).
  { left. lia. }
  cbn [after_events outcome final_config final_world trace].
  rewrite actuators_app, engine_outcomes_app, Ho, Hf, Hw, Ha, He.
  repeat split.
Qed.

Lemma run_resumes_witness :
  outcome (run_stub scenario_stub (3 + 5) default_config) =
  outcome (run stub_house_edge (init (stub_engine scenario_stub) default_config)
             5 (final_config (run_stub scenario_stub 3 default_config))
             (final_world (run_stub scenario_stub 3 default_config))).
Proof.
  refine (proj1 (run_resumes stub_house_edge
                   (init (stub_engine scenario_stub) default_config) 3 5
                   default_config tt _ _ _)).
  - lia.
  - lia.
  - vm_compute. reflexivity.
Defined.

(** X12.  What [run] prints: one "Iteration i" line for each [simulate()]
    call that returned, with [i] counting 0, 1, 2, ... in order, and the
    "Edge stabilized" line exactly once when the run converges and not at
    all otherwise. *)
Theorem run_prints {W Result : Type} (house_edge : Result -> float)
    (self : AutoBalancer (EngineClass W Result)) (max_iterations : Z)
    (config : Config) (w : W) :
  printed_indices (trace (run house_edge self max_iterations config w)) =
    py_range
      (List.length
         (returned_statistics house_edge
            (trace (run house_edge self max_iterations config w)))) /\
  count_stabilized (trace (run house_edge self max_iterations config w)) =
    match stop_decision house_edge self
            (run house_edge self max_iterations config w) with
    | Converged => 1%nat
    | _ => O
    end.
Proof.
  unfold run.
  destruct (run_loop_prints house_edge self (Z.to_nat max_iterations) 0 None
              config w) as [Hp Hs].
  split.
  - rewrite Hp. rewrite <- (map_id (py_range _)) at 2.
    apply map_ext. intros j. lia.
  - apply Hs. right. reflexivity.
Qed.

Lemma run_loop_stops_at_first_in_band {W Result : Type}
    (house_edge : Result -> float)
    (self : AutoBalancer (EngineClass W Result)) :
  forall (k : nat) (i : Z) (res : option Result) (config : Config) (w : W)
         (l : list float) (x : float),
    returned_statistics house_edge
      (trace (run_loop house_edge self k i res config w)) = l ++ [x] ->
    Forall (fun y => in_band self y = false) l.
Proof.
  induction k as [ | k IH]; intros i res config w l x.
  - cbn [run_loop trace returned_statistics]. intros H.
    destruct l; discriminate H.
  - destruct (run_loop_shape house_edge self k i res config w)
      as [e w1 ev _ Hev HR | r w1 _ Hb HR | r w1 _ Hb HR]; rewrite HR;
      clear HR.
    + destruct Hev as [-> | ->]; cbn [trace returned_statistics]; intros H;
        destruct l; discriminate H.
    + cbn [trace returned_statistics]. intros H.
      destruct l as [ | y l]; [constructor | ].
      destruct l; discriminate H.
    + cbn [after_events trace app returned_statistics]. intros H.
      destruct l as [ | y l]; [constructor | ].
      cbn [app] in H.
      assert (Hy : house_edge r = y) by congruence.
      pose proof (f_equal (@tl _) H) as Htl. cbn [tl] in Htl.
      constructor.
      * rewrite <- Hy. exact Hb.
      * exact (IH (i + 1) (Some r) (snd (adjust self (house_edge r) config))
                 w1 l x Htl).
Qed.

(** X13.  The first statistic inside the band ends the run: among the
    statistics the engine returned during a run, every one but the last is
    outside the band. *)
Theorem run_stops_at_first_in_band {W Result : Type}
    (house_edge : Result -> float)
    (self : AutoBalancer (EngineClass W Result)) (max_iterations : Z)
    (config : Config) (w : W) (l : list float) (x : float) :
  returned_statistics house_edge
    (trace (run house_edge self max_iterations config w)) = l ++ [x] ->
  Forall (fun y => in_band self y = false) l.
Proof.
  unfold run. apply run_loop_stops_at_first_in_band.
Qed.

Lemma run_stops_at_first_in_band_witness :
  Forall
    (fun y => in_band (init (stub_engine mirror_stub) default_config) y = false)
    (removelast
       (returned_statistics stub_house_edge
          (trace (run_stub mirror_stub 3 default_config)))).
Proof.
  apply (run_stops_at_first_in_band stub_house_edge
           (init (stub_engine mirror_stub) default_config) 3 default_config tt
           _ (last (returned_statistics stub_house_edge
                      (trace (run_stub mirror_stub 3 default_config)))
                   nan)).
  vm_compute. reflexivity.
Defined.
